(** * index.js: a LINE webhook on Express

    A shallow embedding of [src/index.js]: the start-up check of the
    configuration, the signature middleware wrapper, the two routes and the
    event dispatcher [handleEvent], followed by the properties the
    specification states about them.

    The program is JavaScript, so its data are JavaScript values.  A request
    body is what [JSON.parse] produces, and the fragment of the language the
    program exercises on it is written out below: property reads (which
    throw on [null] and [undefined]), truthiness, strict comparison with a
    literal, and the string conversion a template literal performs (which
    throws on an object that carries a property named toString of its own).

    Console output is not part of the state.  The argument expressions of the
    logging calls are still evaluated, because a template literal among them
    can throw. *)

From Stdlib Require Import String Ascii List ZArith Bool Lia DecimalString.
Import ListNotations.
Open Scope string_scope.
Set Warnings "-register-all".

(** ** JavaScript values and completions *)

(** The values [JSON.parse] can build, and [undefined].  A number is taken
    among the integers; none of the properties below looks at how a number
    is printed, only at the fact that printing one cannot throw. *)
Inductive value : Type :=
| VUndefined
| VNull
| VBool (b : bool)
| VNum (n : Z)
| VStr (s : string)
| VArr (items : list value)
| VObj (props : list (string * value)).

(** What a [throw] carries: an engine-made [TypeError], an [Error] made by
    [new Error(message)], or an arbitrary value used as a rejection reason. *)
Inductive thrown : Type :=
| TypeError
| Error (message : string)
| Reason (v : value).

(** The result of evaluating an expression or a block. *)
Inductive completion (A : Type) : Type :=
| Normal (a : A)
| Throw (t : thrown).
Arguments Normal {A} a.
Arguments Throw {A} t.

(** The state a promise settles in. *)
Inductive promise : Type :=
| Fulfilled (v : value)
| Rejected (t : thrown).

Definition bindC {A B : Type} (c : completion A) (k : A -> completion B)
  : completion B :=
  match c with
  | Normal a => k a
  | Throw t => Throw t
  end.

Declare Scope js_scope.
Delimit Scope js_scope with js.
Notation "'let!' x ':=' c 'in' k" := (bindC c (fun x => k))
  (at level 10, x name, c at level 100, k at level 200) : js_scope.

(** [dq] is the double quote and [nl] the line feed of the reply templates. *)
Definition dq : string := String (ascii_of_nat 34) EmptyString.
Definition nl : string := String (ascii_of_nat 10) EmptyString.

Fixpoint lookup (k : string) (props : list (string * value)) : option value :=
  match props with
  | [] => None
  | (k', v) :: rest => if String.eqb k k' then Some v else lookup k rest
  end.

Definition nullish (v : value) : bool :=
  match v with
  | VUndefined | VNull => true
  | _ => false
  end.

(** ToBoolean. *)
Definition truthy (v : value) : bool :=
  match v with
  | VUndefined | VNull => false
  | VBool b => b
  | VNum n => negb (Z.eqb n 0)
  | VStr s => negb (String.eqb s EmptyString)
  | VArr _ | VObj _ => true
  end.

(** [v === 'lit'] and [v === n] for a literal on the right. *)
Definition is_str (v : value) (lit : string) : bool :=
  match v with
  | VStr s => String.eqb s lit
  | _ => false
  end.

Definition is_num (v : value) (lit : Z) : bool :=
  match v with
  | VNum n => Z.eqb n lit
  | _ => false
  end.

(** The member expression [v.k].  Reading a property of [null] or
    [undefined] throws a [TypeError]; an object answers with its own
    property or [undefined]; arrays and strings have a [length]; every other
    read the program makes finds nothing.  (The names the program reads are
    not on any prototype, except [length], and [map], whose call is modelled
    where it is made.  Strings are kept as their UTF-8 bytes, so the [length]
    of a string is exact for ASCII text only; the program compares a length
    with zero and nothing else.) *)
Definition get (v : value) (k : string) : completion value :=
  match v with
  | VUndefined | VNull => Throw TypeError
  | VObj props =>
      match lookup k props with
      | Some x => Normal x
      | None => Normal VUndefined
      end
  | VArr items =>
      if String.eqb k "length" then Normal (VNum (Z.of_nat (List.length items)))
      else Normal VUndefined
  | VStr s =>
      if String.eqb k "length" then Normal (VNum (Z.of_nat (String.length s)))
      else Normal VUndefined
  | VBool _ | VNum _ => Normal VUndefined
  end.

(** [v.k1.k2] *)
Definition get2 (v : value) (k1 k2 : string) : completion value :=
  (let! x := get v k1 in get x k2)%js.

Definition Number_toString (n : Z) : string :=
  NilZero.string_of_int (Z.to_int n).

(** [Array.prototype.join] with the default separator, over the conversion
    [str] of an element: [null] and [undefined] print as nothing. *)
Definition join_with (str : value -> completion string)
  : list value -> completion string :=
  fix join (l : list value) : completion string :=
    match l with
    | [] => Normal EmptyString
    | x :: rest =>
        let element :=
          match x with
          | VUndefined | VNull => Normal EmptyString
          | _ => str x
          end in
        match rest with
        | [] => element
        | _ :: _ =>
            (let! s := element in
             let! r := join rest in
             Normal (s ++ "," ++ r))%js
        end
    end.

(** ToString, as a template literal applies it to a substitution.  An array
    is joined.  On an object, the inherited [toString] gives
    "[object Object]"; but a property named toString of the object's own
    (never callable, in a parsed body) hides it, the inherited [valueOf]
    returns the object itself, and the conversion throws. *)
Fixpoint ToString (v : value) : completion string :=
  match v with
  | VUndefined => Normal "undefined"
  | VNull => Normal "null"
  | VBool b => Normal (if b then "true" else "false")
  | VNum n => Normal (Number_toString n)
  | VStr s => Normal s
  | VArr items => join_with ToString items
  | VObj props =>
      match lookup "toString" props with
      | Some _ => Throw TypeError
      | None => Normal "[object Object]"
      end
  end.

(** Reading a property of a caught exception: [TypeError] and [Error]
    objects have a [message] and nothing else the program asks for.  The
    wording of an engine-made message is the engine's; the program only logs
    it, and a fixed word stands for it here. *)
Definition thrown_get (e : thrown) (k : string) : completion value :=
  match e with
  | TypeError =>
      if String.eqb k "message" then Normal (VStr "TypeError")
      else Normal VUndefined
  | Error m =>
      if String.eqb k "message" then Normal (VStr m) else Normal VUndefined
  | Reason v => get v k
  end.

(** ** Effects *)

(** What a run leaves behind: one [Dispatch] each time [handleEvent] is
    entered and one [Reply] each time [client.replyMessage] is called. *)
Inductive effect : Type :=
| Dispatch (event : value)
| Reply (replyToken : value) (message : value).

Definition trace : Type := list effect.

Definition is_reply (e : effect) : bool :=
  match e with
  | Reply _ _ => true
  | Dispatch _ => false
  end.

Definition is_dispatch (e : effect) : bool :=
  match e with
  | Dispatch _ => true
  | Reply _ _ => false
  end.

Definition replies (t : trace) : nat := List.length (filter is_reply t).
Definition dispatches (t : trace) : nat := List.length (filter is_dispatch t).

(** Statements run in a state-and-exception monad over the trace; the
    trace survives a throw. *)
Definition M (A : Type) : Type := trace -> completion A * trace.

Definition ret {A : Type} (a : A) : M A := fun t => (Normal a, t).

Definition bind {A B : Type} (m : M A) (k : A -> M B) : M B :=
  fun t =>
    match m t with
    | (Normal a, t') => k a t'
    | (Throw e, t') => (Throw e, t')
    end.

Definition lift {A : Type} (c : completion A) : M A := fun t => (c, t).

Definition emit (e : effect) : M unit := fun t => (Normal tt, (t ++ [e])%list).

Definition try_catch {A : Type} (body : M A) (handler : thrown -> M A) : M A :=
  fun t =>
    match body t with
    | (Normal a, t') => (Normal a, t')
    | (Throw e, t') => handler e t'
    end.

Notation "x <- m ;; k" := (bind m (fun x => k))
  (at level 61, m at next level, right associativity) : js_scope.
Notation "m ;;; k" := (bind m (fun _ => k))
  (at level 61, right associativity) : js_scope.

(** ** The reply-delivery client

    [client.replyMessage(replyToken, message)] belongs to the LINE SDK.  It
    is taken as an arbitrary function of the call's arguments and of the
    number of calls made before it in the run, which stands for everything
    else its answer may depend on. *)
Definition Client : Type := nat -> value -> value -> promise.

Definition replyMessage (client : Client) (replyToken message : value) : M promise :=
  fun t => (Normal (client (replies t) replyToken message),
            (t ++ [Reply replyToken message])%list).

(** [await p] *)
Definition await (p : promise) : M value :=
  match p with
  | Fulfilled v => ret v
  | Rejected e => lift (Throw e)
  end.

(** ** Configuration *)

(** [process.env] yields a string or [undefined]. *)
Record lineConfig : Type := {
  channelSecret : option string;
  channelAccessToken : option string
}.

Definition env_value (o : option string) : value :=
  match o with
  | Some s => VStr s
  | None => VUndefined
  end.

(** Lines 24-27: the module refuses to load without both secrets. *)
Definition startup (cfg : lineConfig) : completion unit :=
  if negb (truthy (env_value (channelSecret cfg)))
     || negb (truthy (env_value (channelAccessToken cfg)))
  then Throw (Error "Missing required environment variables")
  else Normal tt.

(** ** The event dispatcher *)

Definition text_head : string :=
  "คุณได้ส่งข้อความประเภท: ข้อความ (Text)" ++ nl ++ "ข้อความของคุณคือ: " ++ dq.
Definition image_reply : string := "คุณได้ส่งข้อความประเภท: รูปภาพ (Image)".
Definition video_reply : string := "คุณได้ส่งข้อความประเภท: วิดีโอ (Video)".
Definition audio_reply : string := "คุณได้ส่งข้อความประเภท: ไฟล์เสียง (Audio)".
Definition file_head : string :=
  "คุณได้ส่งข้อความประเภท: ไฟล์ (File)" ++ nl ++ "ชื่อไฟล์: ".
Definition location_head : string :=
  "คุณได้ส่งข้อความประเภท: ตำแหน่งที่ตั้ง (Location)" ++ nl ++ "ที่อยู่: ".
Definition sticker_head : string :=
  "คุณได้ส่งข้อความประเภท: สติกเกอร์ (Sticker)" ++ nl ++ "Package ID: ".
Definition sticker_mid : string := nl ++ "Sticker ID: ".
Definition default_head : string := "คุณได้ส่งข้อความประเภท: " ++ dq.
Definition default_tail : string := dq ++ " ซึ่งยังไม่รองรับการตอบกลับ".

(** Lines 105-136: the [switch] on [messageType] that fills [replyText]. *)
Definition replyText (event messageType : value) : completion string :=
  (if is_str messageType "text" then
     let! userMessage := get2 event "message" "text" in
     let! s := ToString userMessage in
     Normal (text_head ++ s ++ dq)
   else if is_str messageType "image" then Normal image_reply
   else if is_str messageType "video" then Normal video_reply
   else if is_str messageType "audio" then Normal audio_reply
   else if is_str messageType "file" then
     let! fileName := get2 event "message" "fileName" in
     let! s := ToString fileName in
     Normal (file_head ++ s)
   else if is_str messageType "location" then
     let! address := get2 event "message" "address" in
     let! s := ToString address in
     Normal (location_head ++ s)
   else if is_str messageType "sticker" then
     let! packageId := get2 event "message" "packageId" in
     let! p := ToString packageId in
     let! stickerId := get2 event "message" "stickerId" in
     let! s := ToString stickerId in
     Normal (sticker_head ++ p ++ sticker_mid ++ s)
   else
     let! s := ToString messageType in
     Normal (default_head ++ s ++ default_tail))%js.

(** Lines 148-155: the [catch] block around the delivery call. *)
Definition on_delivery_error (error : thrown) : M value :=
  (_ <- lift (thrown_get error "message") ;;
   originalError <- lift (thrown_get error "originalError") ;;
   _ <- (if truthy originalError then
           response <- lift (get originalError "response") ;;
           if nullish response then ret VUndefined
           else lift (get response "data")
         else ret VUndefined) ;;
   ret VNull)%js.

(** Lines 90-156, the body of the [async] function. *)
Definition handleEvent_body (client : Client) (event : value) : M value :=
  (emit (Dispatch event) ;;;
   type <- lift (get event "type") ;;
   if negb (is_str type "message") then
     _ <- lift (ToString type) ;;
     ret VNull
   else
     messageType <- lift (get2 event "message" "type") ;;
     text <- lift (replyText event messageType) ;;
     let message := VObj [("type", VStr "text"); ("text", VStr text)] in
     try_catch
       (shown <- lift (get event "replyToken") ;;
        _ <- lift (ToString shown) ;;
        replyToken <- lift (get event "replyToken") ;;
        p <- replyMessage client replyToken message ;;
        await p)
       on_delivery_error)%js.

(** An [async] function never throws to its caller: what its body throws
    rejects the promise it returns. *)
Definition handleEvent (client : Client) (event : value) (t : trace)
  : promise * trace :=
  match handleEvent_body client event t with
  | (Normal v, t') => (Fulfilled v, t')
  | (Throw e, t') => (Rejected e, t')
  end.

(** ** The batch processor *)

(** [events.map(handleEvent)]: the calls are made one after the other, in
    the order of the array, each running up to its delivery call before the
    next one starts. *)
Fixpoint map_handleEvent (client : Client) (events : list value) (t : trace)
  : list promise * trace :=
  match events with
  | [] => ([], t)
  | event :: rest =>
      let (p, t1) := handleEvent client event t in
      let (ps, t2) := map_handleEvent client rest t1 in
      (p :: ps, t2)
  end.

(** [Promise.all]: the values in the order of the promises when every one
    is fulfilled.  Which reason it rejects with, when several promises are
    rejected, depends on the order they settle in; the program only logs it,
    so it is not kept. *)
Inductive joined : Type :=
| AllFulfilled (result : list value)
| SomeRejected.

Fixpoint Promise_all (ps : list promise) : joined :=
  match ps with
  | [] => AllFulfilled []
  | Fulfilled v :: rest =>
      match Promise_all rest with
      | AllFulfilled vs => AllFulfilled (v :: vs)
      | SomeRejected => SomeRejected
      end
  | Rejected _ :: _ => SomeRejected
  end.

(** ** The Express application *)

Inductive payload : Type :=
| Json (v : value)
| Text (s : string)
| ExpressDefault.

Record response : Type := {
  status : Z;
  body : payload
}.

(** The route Express selects for the request's method and path. *)
Inductive route : Type :=
| GetRoot
| PostWebhook
| NoRoute.

(** A request as the application sees it: the route, what the signature
    middleware of the SDK hands to its callback ([undefined] when it calls
    back with nothing), the parsed body, and the clock reading
    [new Date().toISOString()] would give. *)
Record request : Type := {
  target : route;
  verdict : value;
  req_body : value;
  now : string
}.

Definition set_or_not (o : option string) : value :=
  if truthy (env_value o) then VStr "Set" else VStr "Not set".

(** Lines 57-66. *)
Definition get_root (cfg : lineConfig) (req : request) : response :=
  {| status := 200;
     body := Json (VObj
       [("status", VStr "LINE Bot is running on AWS Lambda! 🤖");
        ("timestamp", VStr (now req));
        ("config", VObj
           [("channelSecret", set_or_not (channelSecret cfg));
            ("channelAccessToken", set_or_not (channelAccessToken cfg))])]) |}.

Definition ok_response : response := {| status := 200; body := Text "OK" |}.

Definition success_response (result : list value) : response :=
  {| status := 200;
     body := Json (VObj [("status", VStr "success"); ("result", VArr result)]) |}.

Definition error_response : response :=
  {| status := 200; body := Json (VObj [("status", VStr "error")]) |}.

(** Lines 71-74: [!req.body.events || req.body.events.length === 0]. *)
Definition no_events (events : value) : completion bool :=
  (if negb (truthy events) then Normal true
   else let! len := get events "length" in Normal (is_num len 0))%js.

(** Lines 68-85.  Calling [map] on anything but an array is a [TypeError]:
    no other value of a parsed body has a callable [map]. *)
Definition post_webhook (client : Client) (req : request) : M response :=
  (events <- lift (get (req_body req) "events") ;;
   empty <- lift (no_events events) ;;
   if (empty : bool) then ret ok_response
   else
     match events with
     | VArr items =>
         fun t =>
           let (ps, t') := map_handleEvent client items t in
           match Promise_all ps with
           | AllFulfilled result => (Normal (success_response result), t')
           | SomeRejected => (Normal error_response, t')
           end
     | _ => lift (Throw TypeError)
     end)%js.

(** Lines 41-52: the wrapper around the SDK's middleware. *)
Definition unauthorized (err : value) : completion response :=
  (let! message := get err "message" in
   Normal {| status := 401;
             body := Json (VObj [("message", VStr "Unauthorized");
                                 ("error", message)]) |})%js.

(** What Express answers by itself: 500 when a handler throws, 404 when no
    route matches. *)
Definition express_error : response := {| status := 500; body := ExpressDefault |}.
Definition express_not_found : response := {| status := 404; body := ExpressDefault |}.

Definition settle (r : completion response * trace) : response * trace :=
  match r with
  | (Normal res, t) => (res, t)
  | (Throw _, t) => (express_error, t)
  end.

(** One request through the application: the middleware first, then the
    routes in the order they were registered. *)
Definition app (cfg : lineConfig) (client : Client) (req : request)
  : response * trace :=
  if truthy (verdict req) then settle (unauthorized (verdict req), [])
  else
    match target req with
    | GetRoot => (get_root cfg req, [])
    | PostWebhook => settle (post_webhook client req [])
    | NoRoute => (express_not_found, [])
    end.

(** ** Predicates on inputs *)

(** The string conversion of [v] completes. *)
Definition renders (v : value) : bool :=
  match ToString v with
  | Normal _ => true
  | Throw _ => false
  end.

(** The property [v.k] can be read and converts to a string. *)
Definition field_renders (v : value) (k : string) : bool :=
  match get v k with
  | Normal x => renders x
  | Throw _ => false
  end.

(** The properties of a message the reply templates substitute. *)
Definition content_fields : list string :=
  ["text"; "fileName"; "address"; "packageId"; "stickerId"].

Definition fields_render (message : value) : bool :=
  forallb (field_renders message) content_fields.

(** An exception whose properties can be read: anything but a bare [null]
    or [undefined] used as a rejection reason. *)
Definition error_object (e : thrown) : bool :=
  match e with
  | Reason v => negb (nullish v)
  | TypeError | Error _ => true
  end.

(** The events [handleEvent] takes to completion: the event is not [null] or
    [undefined], its [type] converts to a string, and when the type is
    "message" the event carries a [message] that is not [null] or
    [undefined] and whose [type] and content fields convert to strings. *)
Definition dispatchable (event : value) : bool :=
  match get event "type" with
  | Normal type =>
      if is_str type "message" then
        match get event "message" with
        | Normal message =>
            negb (nullish message) && field_renders message "type"
            && fields_render message
        | Throw _ => false
        end
      else renders type
  | Throw _ => false
  end.

(** The event is a message event. *)
Definition is_message_event (event : value) : bool :=
  match get event "type" with
  | Normal type => is_str type "message"
  | Throw _ => false
  end.

(** The trace just before the [i]-th event of a batch is handled. *)
Definition trace_before (client : Client) (items : list value) (i : nat) : trace :=
  snd (map_handleEvent client (firstn i items) []).

(** The shape of [events] in a well-formed body: an array, or absent (or
    any other falsy value). *)
Definition batch_shaped (events : value) : bool :=
  match events with
  | VArr _ => true
  | _ => negb (truthy events)
  end.

(** The HTTP status codes of the success range. *)
Definition success_range (code : Z) : Prop := (200 <= code <= 299)%Z.

(** ** Induction on values *)

Section ValueInduction.

Variable P : value -> Prop.
Hypothesis Pundefined : P VUndefined.
Hypothesis Pnull : P VNull.
Hypothesis Pbool : forall b, P (VBool b).
Hypothesis Pnum : forall n, P (VNum n).
Hypothesis Pstr : forall s, P (VStr s).
Hypothesis Parr : forall items, Forall P items -> P (VArr items).
Hypothesis Pobj : forall props, P (VObj props).

(** Induction on a value, with the hypothesis for every element of an
    array. *)
Fixpoint value_induction (v : value) : P v :=
  match v with
  | VUndefined => Pundefined
  | VNull => Pnull
  | VBool b => Pbool b
  | VNum n => Pnum n
  | VStr s => Pstr s
  | VArr items =>
      Parr items
        ((fix all (l : list value) : Forall P l :=
            match l with
            | [] => Forall_nil P
            | x :: rest => Forall_cons x (value_induction x) (all rest)
            end) items)
  | VObj props => Pobj props
  end.

End ValueInduction.

(** ** The outline of a dispatch

    Up to its delivery call [handleEvent] does not consult the client.  The
    outline of an event is what that part of the body comes to: a throw
    before the [try] block, the early return of an event that is not a
    message, a throw inside the [try] block before the call, or the call
    with its two arguments.  [handleEvent_outline] below shows that
    [handleEvent] is its outline followed by the settlement of the call. *)
Inductive outline : Type :=
| Throws (e : thrown)
| Skipped
| NotSent (e : thrown)
| Sends (replyToken message : value).

Definition outline_of (event : value) : outline :=
  match get event "type" with
  | Throw e => Throws e
  | Normal type =>
      if negb (is_str type "message") then
        match ToString type with
        | Normal _ => Skipped
        | Throw e => Throws e
        end
      else
        match get2 event "message" "type" with
        | Throw e => Throws e
        | Normal messageType =>
            match replyText event messageType with
            | Throw e => Throws e
            | Normal text =>
                match (let! shown := get event "replyToken" in
                       let! _ := ToString shown in
                       get event "replyToken")%js with
                | Throw e => NotSent e
                | Normal replyToken =>
                    Sends replyToken
                      (VObj [("type", VStr "text"); ("text", VStr text)])
                end
            end
        end
  end.

(** What the [catch] block makes of an exception. *)
Definition caught (e : thrown) : promise :=
  if error_object e then Fulfilled VNull else Rejected TypeError.

(** What [handleEvent] makes of the promise of its delivery call. *)
Definition delivery_outcome (p : promise) : promise :=
  match p with
  | Fulfilled receipt => Fulfilled receipt
  | Rejected e => caught e
  end.

(** The effects of one dispatch. *)
Definition footprint (event : value) : trace :=
  match outline_of event with
  | Sends replyToken message => [Dispatch event; Reply replyToken message]
  | _ => [Dispatch event]
  end.

(** ** Sample inputs *)

Module Sample.

Definition cfg : lineConfig :=
  {| channelSecret := Some "secret"; channelAccessToken := Some "token" |}.

Definition receipt : value := VObj [("sentMessages", VArr [])].

(** A client that delivers every reply. *)
Definition delivers : Client := fun _ _ _ => Fulfilled receipt.

Definition http_error : thrown :=
  Reason (VObj [("message", VStr "Request failed with status code 400");
                ("originalError", VObj [("response", VObj [("data", VStr "Invalid reply token")])])]).

(** A client whose second call fails. *)
Definition fails_second : Client :=
  fun n _ _ => if Nat.eqb n 1 then Rejected http_error else Fulfilled receipt.

Definition text_event (token body : string) : value :=
  VObj [("type", VStr "message"); ("replyToken", VStr token);
        ("message", VObj [("type", VStr "text"); ("text", VStr body)])].

Definition sticker_event : value :=
  VObj [("type", VStr "message"); ("replyToken", VStr "r3");
        ("message", VObj [("type", VStr "sticker"); ("packageId", VStr "1");
                          ("stickerId", VStr "2")])].

Definition follow_event : value :=
  VObj [("type", VStr "follow"); ("replyToken", VStr "r0")].

(** A message event without its [message]. *)
Definition bare_event : value :=
  VObj [("type", VStr "message"); ("replyToken", VStr "r9")].

Definition signature_error : value :=
  VObj [("message", VStr "no signature")].

Definition post (events : list value) : request :=
  {| target := PostWebhook; verdict := VUndefined;
     req_body := VObj [("destination", VStr "U0"); ("events", VArr events)];
     now := "2024-01-01T00:00:00.000Z" |}.

Definition post_without_events : request :=
  {| target := PostWebhook; verdict := VUndefined;
     req_body := VObj [("destination", VStr "U0")];
     now := "2024-01-01T00:00:00.000Z" |}.

Definition health (err : value) : request :=
  {| target := GetRoot; verdict := err; req_body := VUndefined;
     now := "2024-01-01T00:00:00.000Z" |}.

Definition batch : list value :=
  [text_event "r1" "hello"; text_event "r2" "bye"; follow_event; sticker_event].

End Sample.

(** ** The start-up log *)

(** Lines 30-31: what each of the two start-up log lines shows of a secret,
    [secret?.substring(0, 10) + '...'].  On [undefined] the optional call
    yields [undefined], which the concatenation prints by name.  (Strings
    being kept as bytes, [substring] cuts where JavaScript does on ASCII
    text.) *)
Definition preview (o : option string) : string :=
  match o with
  | Some s => substring 0 10 s ++ "..."
  | None => "undefined" ++ "..."
  end.

Fixpoint ascii_only (s : string) : bool :=
  match s with
  | EmptyString => true
  | String c rest => Nat.ltb (nat_of_ascii c) 128 && ascii_only rest
  end.

(** ** Further predicates on inputs *)

(** The message kinds the [switch] of [handleEvent] has a case for. *)
Definition known_kinds : list string :=
  ["text"; "image"; "video"; "audio"; "file"; "location"; "sticker"].

Definition is_array (v : value) : bool :=
  match v with
  | VArr _ => true
  | _ => false
  end.

(** A message event whose [message] is missing or [null]. *)
Definition lacks_message (event : value) : bool :=
  is_message_event event
  && match get event "message" with
     | Normal message => nullish message
     | Throw _ => true
     end.

(** ** Further sample inputs *)

Module Edge.

(** A client that rejects with no reason at all. *)
Definition rejects_bare : Client := fun _ _ _ => Rejected (Reason VUndefined).

(** A message event whose reply token cannot be printed. *)
Definition odd_token_event : value :=
  VObj [("type", VStr "message");
        ("replyToken", VObj [("toString", VNum 1)]);
        ("message", VObj [("type", VStr "image")])].

(** A message event whose [message] is a string. *)
Definition string_message_event : value :=
  VObj [("type", VStr "message"); ("replyToken", VStr "r5");
        ("message", VStr "hi")].

(** A file message without its file name. *)
Definition nameless_file_event : value :=
  VObj [("type", VStr "message"); ("replyToken", VStr "r6");
        ("message", VObj [("type", VStr "file")])].

Definition full_message : value :=
  VObj [("type", VStr "file"); ("fileName", VStr "a.pdf");
        ("address", VStr "1 Main St"); ("packageId", VStr "1");
        ("stickerId", VStr "2")].

Definition full_event : value :=
  VObj [("type", VStr "message"); ("replyToken", VStr "r7");
        ("message", full_message)].

Definition post_body (b : value) : request :=
  {| target := PostWebhook; verdict := VUndefined; req_body := b;
     now := "2024-01-01T00:00:00.000Z" |}.

End Edge.

(** * Properties *)

(** ** Running the model on sample inputs *)

Example text_event_runs :
  handleEvent Sample.delivers (Sample.text_event "r1" "hello") [] =
  (Fulfilled Sample.receipt,
   [Dispatch (Sample.text_event "r1" "hello");
    Reply (VStr "r1")
      (VObj [("type", VStr "text");
             ("text", VStr (text_head ++ "hello" ++ dq))])]).
Proof. reflexivity. Qed.

Example follow_event_runs :
  handleEvent Sample.delivers Sample.follow_event [] =
  (Fulfilled VNull, [Dispatch Sample.follow_event]).
Proof. reflexivity. Qed.

Example batch_runs :
  fst (app Sample.cfg Sample.fails_second (Sample.post Sample.batch)) =
  success_response [Sample.receipt; VNull; VNull; Sample.receipt].
Proof. reflexivity. Qed.

Example array_prints_joined :
  ToString (VArr [VNum 1; VNull; VArr [VStr "a"; VStr "b"]]) = Normal "1,,a,b".
Proof. reflexivity. Qed.

Example own_toString_throws :
  ToString (VObj [("toString", VNum 1)]) = Throw TypeError.
Proof. reflexivity. Qed.

Example events_not_an_array :
  fst (app Sample.cfg Sample.delivers
         {| target := PostWebhook; verdict := VUndefined;
            req_body := VObj [("events", VStr "abc")]; now := EmptyString |})
  = express_error.
Proof. reflexivity. Qed.

(** ** JavaScript values: basic facts *)

Lemma truthy_not_nullish (v : value) : truthy v = true -> nullish v = false.
Proof. destruct v; simpl; congruence. Qed.

Lemma get_defined (v : value) (k : string) :
  nullish v = false -> exists x, get v k = Normal x.
Proof.
  destruct v; simpl; try discriminate; intros _;
    try (destruct (String.eqb k "length")); try (destruct (lookup k props));
    eexists; reflexivity.
Qed.

Lemma get_nullish (v : value) (k : string) :
  nullish v = true -> get v k = Throw TypeError.
Proof. destruct v; simpl; try discriminate; reflexivity. Qed.

Lemma renders_ToString (v : value) :
  renders v = true -> exists s, ToString v = Normal s.
Proof.
  unfold renders. destruct (ToString v) as [s|e]; [eauto | discriminate].
Qed.

Lemma field_renders_spec (v : value) (k : string) :
  field_renders v k = true ->
  exists x s, get v k = Normal x /\ ToString x = Normal s.
Proof.
  unfold field_renders. destruct (get v k) as [x|e]; [|discriminate].
  intros H. destruct (renders_ToString _ H) as [s Hs]. eauto.
Qed.

Lemma fields_render_spec (message : value) :
  fields_render message = true ->
  forall k, In k content_fields -> field_renders message k = true.
Proof.
  unfold fields_render. intros H k Hk.
  rewrite forallb_forall in H. auto.
Qed.

Lemma app_nonempty (a b : string) :
  a <> EmptyString -> a ++ b <> EmptyString.
Proof. destruct a; simpl; [congruence | discriminate]. Qed.

Lemma error_object_message (e : thrown) (k : string) :
  error_object e = true -> exists x, thrown_get e k = Normal x.
Proof.
  destruct e as [ | m | v]; simpl; intros H.
  - destruct (String.eqb k "message"); eauto.
  - destruct (String.eqb k "message"); eauto.
  - apply get_defined. destruct (nullish v); [discriminate | reflexivity].
Qed.

(** ** Reply composition *)

(** A substituted field of a message that renders: the read and the
    conversion both complete. *)
Lemma get2_message (event message : value) (k : string) :
  get event "message" = Normal message ->
  field_renders message k = true ->
  exists x s, get2 event "message" k = Normal x /\ ToString x = Normal s.
Proof.
  intros Hm Hk. destruct (field_renders_spec _ _ Hk) as (x & s & Hx & Hs).
  exists x, s. unfold get2. rewrite Hm. simpl. auto.
Qed.

Ltac use_field Hm Hf k :=
  let x := fresh "x" in let s := fresh "s" in
  let Hx := fresh "Hx" in let Hs := fresh "Hs" in
  destruct (get2_message _ _ k Hm (fields_render_spec _ Hf k
              ltac:(simpl; tauto))) as (x & s & Hx & Hs);
  rewrite Hx; cbn [bindC]; rewrite Hs; cbn [bindC].

(** Whenever the message type and the content fields convert to strings,
    the [switch] yields a reply text, and the text is not empty. *)
Lemma replyText_nonempty (event message messageType : value) :
  get event "message" = Normal message ->
  fields_render message = true ->
  renders messageType = true ->
  exists s, replyText event messageType = Normal s /\ s <> EmptyString.
Proof.
  intros Hm Hf Ht. unfold replyText.
  destruct (is_str messageType "text").
  { use_field Hm Hf "text". eexists; split; [reflexivity|].
    apply app_nonempty. discriminate. }
  destruct (is_str messageType "image").
  { eexists; split; [reflexivity | discriminate]. }
  destruct (is_str messageType "video").
  { eexists; split; [reflexivity | discriminate]. }
  destruct (is_str messageType "audio").
  { eexists; split; [reflexivity | discriminate]. }
  destruct (is_str messageType "file").
  { use_field Hm Hf "fileName". eexists; split; [reflexivity|].
    apply app_nonempty. discriminate. }
  destruct (is_str messageType "location").
  { use_field Hm Hf "address". eexists; split; [reflexivity|].
    apply app_nonempty. discriminate. }
  destruct (is_str messageType "sticker").
  { use_field Hm Hf "packageId". use_field Hm Hf "stickerId".
    eexists; split; [reflexivity|]. apply app_nonempty. discriminate. }
  destruct (renders_ToString _ Ht) as [s Hs]. rewrite Hs. cbn [bindC].
  eexists; split; [reflexivity|]. apply app_nonempty. discriminate.
Qed.

(** C2.  For every string [t] used as [message.type], one of the seven
    known kinds or any other, the switch of [handleEvent] produces a reply
    text and the text is not empty, for every message whose content fields
    convert to strings (as the fields of the data model, which are strings,
    all do). *)
Theorem replyText_total (event message : value) (t : string) :
  get event "message" = Normal message ->
  fields_render message = true ->
  exists s, replyText event (VStr t) = Normal s /\ s <> EmptyString.
Proof.
  intros Hm Hf. apply (replyText_nonempty event message (VStr t) Hm Hf).
  reflexivity.
Qed.

Lemma replyText_total_witness :
  exists s, replyText Sample.sticker_event (VStr "sticker") = Normal s
            /\ s <> EmptyString.
Proof.
  apply (replyText_total Sample.sticker_event
           (VObj [("type", VStr "sticker"); ("packageId", VStr "1");
                  ("stickerId", VStr "2")]) "sticker");
    reflexivity.
Defined.

(** C5.  For a text message with body [s], the reply text is the template
    of line 108 with [s] in the place of the substitution, unchanged: the
    two fixed lines, an opening double quote, [s], a closing double quote. *)
Theorem text_reply_echoes (event message : value) (s : string) :
  get event "message" = Normal message ->
  get message "text" = Normal (VStr s) ->
  replyText event (VStr "text") =
  Normal ("คุณได้ส่งข้อความประเภท: ข้อความ (Text)" ++ nl
          ++ "ข้อความของคุณคือ: " ++ dq ++ s ++ dq).
Proof.
  intros Hm Hs. unfold replyText, get2.
  replace (is_str (VStr "text") "text") with true by reflexivity.
  rewrite Hm. cbn [bindC]. rewrite Hs. cbn [bindC ToString].
  reflexivity.
Qed.

Lemma text_reply_echoes_witness :
  replyText (Sample.text_event "r1" "hello") (VStr "text") =
  Normal ("คุณได้ส่งข้อความประเภท: ข้อความ (Text)" ++ nl
          ++ "ข้อความของคุณคือ: " ++ dq ++ "hello" ++ dq).
Proof.
  apply (text_reply_echoes (Sample.text_event "r1" "hello")
           (VObj [("type", VStr "text"); ("text", VStr "hello")]) "hello");
    reflexivity.
Defined.

(** ** The string conversion throws nothing but a [TypeError] *)

Lemma get_throws (v : value) (k : string) (e : thrown) :
  get v k = Throw e -> e = TypeError.
Proof.
  destruct v; simpl;
    try (destruct (String.eqb k "length"));
    try (destruct (lookup k props)); congruence.
Qed.

Lemma join_with_throws (str : value -> completion string) (l : list value) :
  Forall (fun x => forall e, str x = Throw e -> e = TypeError) l ->
  forall e, join_with str l = Throw e -> e = TypeError.
Proof.
  induction 1 as [ | x rest Hx _ IH]; intros e; [simpl; congruence|].
  assert (Hel : forall e',
     match x with
     | VUndefined | VNull => Normal EmptyString
     | _ => str x
     end = Throw e' -> e' = TypeError).
  { intros e'. destruct x; try congruence; apply Hx. }
  change (join_with str (x :: rest)) with
    (match rest with
     | [] => match x with
             | VUndefined | VNull => Normal EmptyString
             | _ => str x
             end
     | _ :: _ =>
         bindC (match x with
                | VUndefined | VNull => Normal EmptyString
                | _ => str x
                end)
           (fun s => bindC (join_with str rest)
                       (fun r => Normal (s ++ "," ++ r)))
     end).
  destruct rest as [ | y rest']; [apply Hel|].
  destruct (match x with
            | VUndefined | VNull => Normal EmptyString
            | _ => str x
            end) as [sx|ex] eqn:Ex; cbn [bindC].
  - destruct (join_with str (y :: rest')) as [sr|er] eqn:Er; cbn [bindC];
      [congruence|].
    intros H. injection H as <-. apply IH. reflexivity.
  - intros H. injection H as <-. apply (Hel ex). reflexivity.
Qed.

Lemma ToString_throws (v : value) (e : thrown) :
  ToString v = Throw e -> e = TypeError.
Proof.
  revert e. induction v as [ | | b | n | s | items IH | props]
    using value_induction; intros e; try (simpl; congruence).
  - apply (join_with_throws ToString items IH).
  - simpl. destruct (lookup "toString" props); congruence.
Qed.

Lemma get2_throws (v : value) (k1 k2 : string) (e : thrown) :
  get2 v k1 k2 = Throw e -> e = TypeError.
Proof.
  unfold get2. destruct (get v k1) as [x|e1] eqn:E1; cbn [bindC].
  - apply get_throws.
  - intros H. injection H as <-. exact (get_throws _ _ _ E1).
Qed.

(** ** One dispatch *)

Lemma replies_app (a b : trace) :
  replies (a ++ b)%list = replies a + replies b.
Proof. unfold replies. rewrite filter_app, length_app. reflexivity. Qed.

Lemma dispatches_app (a b : trace) :
  dispatches (a ++ b)%list = dispatches a + dispatches b.
Proof. unfold dispatches. rewrite filter_app, length_app. reflexivity. Qed.

(** The [catch] block leaves the trace alone and returns [null], unless the
    exception is a bare [null] or [undefined], whose [message] cannot be
    read. *)
Lemma on_delivery_error_run (e : thrown) (t : trace) :
  on_delivery_error e t =
  (match caught e with
   | Fulfilled v => Normal v
   | Rejected x => Throw x
   end, t).
Proof.
  destruct e as [ | m | v]; try reflexivity.
  unfold caught, error_object. destruct (nullish v) eqn:Hv; cbn [negb].
  - unfold on_delivery_error, bind, lift. cbn [thrown_get].
    rewrite (get_nullish _ _ Hv). reflexivity.
  - unfold on_delivery_error, bind, lift, ret. cbn [thrown_get].
    destruct (get_defined v "message" Hv) as [m ->].
    destruct (get_defined v "originalError" Hv) as [oe ->].
    destruct (truthy oe) eqn:Hoe; [|reflexivity].
    destruct (get_defined oe "response" (truthy_not_nullish _ Hoe)) as [r ->].
    destruct (nullish r) eqn:Hr; [reflexivity|].
    destruct (get_defined r "data" Hr) as [d ->]. reflexivity.
Qed.

(** [handleEvent] is the outline of its event followed by the settlement
    of the delivery call, when the outline reaches one. *)
Lemma handleEvent_outline (client : Client) (event : value) (t : trace) :
  handleEvent client event t =
  match outline_of event with
  | Throws e => (Rejected e, t ++ [Dispatch event])
  | Skipped => (Fulfilled VNull, t ++ [Dispatch event])
  | NotSent e => (caught e, t ++ [Dispatch event])
  | Sends replyToken message =>
      (delivery_outcome (client (replies t) replyToken message),
       t ++ [Dispatch event; Reply replyToken message])
  end%list.
Proof.
  unfold handleEvent, handleEvent_body, outline_of, bind, emit, lift, ret.
  destruct (get event "type") as [type|e]; [|reflexivity].
  destruct (is_str type "message"); cbn [negb].
  2:{ destruct (ToString type); reflexivity. }
  destruct (get2 event "message" "type") as [messageType|e]; [|reflexivity].
  destruct (replyText event messageType) as [text|e]; [|reflexivity].
  unfold try_catch, replyMessage, await, lift, ret.
  destruct (get event "replyToken") as [tok|e]; cbn [bindC].
  2:{ rewrite on_delivery_error_run. destruct (caught e); reflexivity. }
  destruct (ToString tok) as [s|e]; cbn [bindC].
  2:{ rewrite on_delivery_error_run. destruct (caught e); reflexivity. }
  rewrite replies_app, Nat.add_0_r, <- app_assoc. cbn [app].
  destruct (client (replies t) tok _) as [r|e]; cbn [delivery_outcome].
  - reflexivity.
  - rewrite on_delivery_error_run. destruct (caught e); reflexivity.
Qed.

Lemma handleEvent_trace (client : Client) (event : value) (t : trace) :
  snd (handleEvent client event t) = (t ++ footprint event)%list.
Proof.
  rewrite handleEvent_outline. unfold footprint.
  destruct (outline_of event); reflexivity.
Qed.

(** Side effect of one invocation: one dispatch mark and at most one
    delivery call. *)
Lemma footprint_counts (event : value) :
  dispatches (footprint event) = 1 /\ replies (footprint event) <= 1.
Proof.
  unfold footprint. destruct (outline_of event); cbn; lia.
Qed.

(** What is thrown inside the [try] block before the call is a
    [TypeError]. *)
Lemma outline_NotSent (event : value) (e : thrown) :
  outline_of event = NotSent e -> e = TypeError.
Proof.
  unfold outline_of.
  destruct (get event "type") as [type|]; [|discriminate].
  destruct (negb (is_str type "message")).
  { destruct (ToString type); discriminate. }
  destruct (get2 event "message" "type") as [messageType|]; [|discriminate].
  destruct (replyText event messageType) as [text|]; [|discriminate].
  destruct (get event "replyToken") as [tok|e0] eqn:Etok; cbn [bindC].
  - destruct (ToString tok) as [s|e1] eqn:Es; cbn [bindC].
    + discriminate.
    + intros H. injection H as <-. exact (ToString_throws _ _ Es).
  - intros H. injection H as <-. exact (get_throws _ _ _ Etok).
Qed.

(** Two clients that answer the call of this dispatch alike, if it makes
    one, give the same dispatch. *)
Lemma handleEvent_agree (c1 c2 : Client) (event : value) (t : trace) :
  (replies (footprint event) = 1 ->
   forall tok msg, c1 (replies t) tok msg = c2 (replies t) tok msg) ->
  handleEvent c1 event t = handleEvent c2 event t.
Proof.
  intros H. rewrite !handleEvent_outline. unfold footprint in H.
  destruct (outline_of event) as [ | | | tok msg]; try reflexivity.
  rewrite (H eq_refl tok msg). reflexivity.
Qed.

(** ** A batch *)

Lemma map_handleEvent_trace (client : Client) (items : list value) :
  forall t, snd (map_handleEvent client items t)
            = (t ++ flat_map footprint items)%list.
Proof.
  induction items as [ | event rest IH]; intros t; simpl.
  - rewrite app_nil_r. reflexivity.
  - pose proof (handleEvent_trace client event t) as Ht.
    destruct (handleEvent client event t) as [p t1]. simpl in Ht. subst t1.
    specialize (IH (t ++ footprint event)%list).
    destruct (map_handleEvent client rest (t ++ footprint event)%list)
      as [ps t2].
    simpl in *. rewrite IH, app_assoc. reflexivity.
Qed.

Lemma trace_before_footprint (client : Client) (items : list value) (i : nat) :
  trace_before client items i = flat_map footprint (firstn i items).
Proof. unfold trace_before. rewrite map_handleEvent_trace. reflexivity. Qed.

Lemma map_handleEvent_length (client : Client) (items : list value) :
  forall t, List.length (fst (map_handleEvent client items t))
            = List.length items.
Proof.
  induction items as [ | event rest IH]; intros t; simpl; [reflexivity|].
  destruct (handleEvent client event t) as [p t1].
  specialize (IH t1). destruct (map_handleEvent client rest t1) as [ps t2].
  simpl in *. congruence.
Qed.

(** The promise at index [i] is the dispatch of the [i]-th event, run
    from the trace the events before it have left. *)
Lemma map_handleEvent_nth (client : Client) (items : list value) :
  forall t i event,
    nth_error items i = Some event ->
    nth_error (fst (map_handleEvent client items t)) i
    = Some (fst (handleEvent client event
                   (t ++ flat_map footprint (firstn i items))%list)).
Proof.
  induction items as [ | first rest IH]; intros t i event Hi.
  - destruct i; discriminate.
  - simpl. pose proof (handleEvent_trace client first t) as Ht.
    destruct (handleEvent client first t) as [p t1] eqn:Hp.
    simpl in Ht. subst t1.
    specialize (IH (t ++ footprint first)%list).
    destruct (map_handleEvent client rest (t ++ footprint first)%list)
      as [ps t2].
    destruct i as [ | i]; simpl in *.
    + injection Hi as <-. rewrite app_nil_r, Hp. reflexivity.
    + rewrite (IH i event Hi), app_assoc. reflexivity.
Qed.

Lemma Promise_all_fulfilled (ps : list promise) (result : list value) :
  Promise_all ps = AllFulfilled result <-> ps = map Fulfilled result.
Proof.
  revert result. induction ps as [ | p ps IH]; intros result; simpl.
  - split; intros H.
    + injection H as <-. reflexivity.
    + destruct result; [reflexivity | discriminate].
  - destruct p as [v|e].
    + destruct (Promise_all ps) as [vs|] eqn:E; split; intros H.
      * injection H as <-. simpl. f_equal. apply IH. reflexivity.
      * destruct result as [ | v' vs']; [discriminate|].
        injection H as -> Hps. f_equal. f_equal.
        apply (proj2 (IH vs')) in Hps. congruence.
      * discriminate.
      * destruct result as [ | v' vs']; [discriminate|].
        injection H as -> Hps. apply (proj2 (IH vs')) in Hps. discriminate.
    + split; intros H; [discriminate|].
      destruct result; discriminate.
Qed.

Lemma Promise_all_rejected (ps : list promise) :
  Promise_all ps = SomeRejected <->
  exists i e, nth_error ps i = Some (Rejected e).
Proof.
  induction ps as [ | p ps IH]; simpl.
  - split; [discriminate|]. intros (i & e & H). destruct i; discriminate.
  - destruct p as [v|e].
    + destruct (Promise_all ps) as [vs|]; split; intros H.
      * discriminate.
      * destruct H as ([ | i] & e & H); [discriminate|].
        assert (Hex : exists i e, nth_error ps i = Some (Rejected e)) by eauto.
        apply IH in Hex. discriminate.
      * destruct (proj1 IH eq_refl) as (i & e & Hi). exists (S i), e. exact Hi.
      * reflexivity.
    + split; [|reflexivity]. intros _. exists 0, e. reflexivity.
Qed.

Lemma firstn_split_at {A : Type} (items : list A) :
  forall a b x, a < b -> nth_error items a = Some x ->
    exists rest, firstn b items = (firstn a items ++ x :: rest)%list.
Proof.
  induction items as [ | y items IH]; intros a b x Hab Ha.
  - destruct a; discriminate.
  - destruct b as [ | b]; [lia|]. destruct a as [ | a]; simpl in *.
    + injection Ha as <-. eauto.
    + destruct (IH a b x ltac:(lia) Ha) as [rest ->]. eauto.
Qed.

(** The delivery calls of a batch are numbered in the order of the events:
    an event that comes before another has made its call, if it makes one,
    before the other starts. *)
Lemma calls_in_order (client : Client) (items : list value) (a b : nat)
      (x : value) :
  a < b -> nth_error items a = Some x ->
  replies (trace_before client items a) + replies (footprint x)
  <= replies (trace_before client items b).
Proof.
  intros Hab Ha. rewrite !trace_before_footprint.
  destruct (firstn_split_at items a b x Hab Ha) as [rest ->].
  rewrite flat_map_app. simpl. rewrite !replies_app. lia.
Qed.

Lemma handleEvent_sends (client : Client) (event : value) (t : trace)
      (tok msg : value) :
  snd (handleEvent client event t) = (t ++ [Dispatch event; Reply tok msg])%list ->
  outline_of event = Sends tok msg.
Proof.
  rewrite handleEvent_trace. intros H. apply app_inv_head in H.
  unfold footprint in H. destruct (outline_of event); try discriminate.
  congruence.
Qed.

Lemma handleEvent_sends_nothing (client : Client) (event : value) (t : trace) :
  snd (handleEvent client event t) = (t ++ [Dispatch event])%list ->
  replies (footprint event) = 0.
Proof.
  rewrite handleEvent_trace. intros H. apply app_inv_head in H.
  rewrite H. reflexivity.
Qed.

(** A dispatchable event has an outline that does not throw. *)
Lemma dispatchable_outline (event : value) :
  dispatchable event = true ->
  outline_of event = Skipped
  \/ outline_of event = NotSent TypeError
  \/ exists tok msg, outline_of event = Sends tok msg.
Proof.
  unfold dispatchable. intros H.
  destruct (outline_of event) as [e | | e | tok msg] eqn:Ho; eauto.
  - exfalso. revert Ho. unfold outline_of.
    destruct (get event "type") as [type|]; [|discriminate].
    destruct (is_str type "message"); cbn [negb].
    2:{ destruct (renders_ToString _ H) as [s ->]. discriminate. }
    destruct (get event "message") as [message|] eqn:Hm; [|discriminate].
    apply andb_prop in H. destruct H as [H Hf].
    apply andb_prop in H. destruct H as [_ Ht].
    destruct (field_renders_spec _ _ Ht) as (mt & s & Hmt & Hs).
    unfold get2. rewrite Hm. cbn [bindC]. rewrite Hmt.
    assert (Hr : renders mt = true) by (unfold renders; rewrite Hs; reflexivity).
    destruct (replyText_nonempty event message mt Hm Hf Hr) as (text & -> & _).
    destruct (bindC (get event "replyToken") _); discriminate.
  - right; left. rewrite (outline_NotSent _ _ Ho). reflexivity.
Qed.

Lemma caught_TypeError : caught TypeError = Fulfilled VNull.
Proof. reflexivity. Qed.

Lemma caught_error_object (e : thrown) :
  error_object e = true -> caught e = Fulfilled VNull.
Proof. unfold caught. intros ->. reflexivity. Qed.

Lemma caught_fulfilled (e : thrown) (v : value) :
  caught e = Fulfilled v -> v = VNull.
Proof. unfold caught. destruct (error_object e); congruence. Qed.

(** ** The routes *)

Lemma app_authenticated (cfg : lineConfig) (client : Client) (req : request) :
  truthy (verdict req) = false ->
  app cfg client req =
  match target req with
  | GetRoot => (get_root cfg req, [])
  | PostWebhook => settle (post_webhook client req [])
  | NoRoute => (express_not_found, [])
  end.
Proof. unfold app. intros ->. reflexivity. Qed.

(** The webhook route on a body whose [events] is a non-empty array. *)
Lemma post_webhook_batch (client : Client) (req : request)
      (items : list value) :
  get (req_body req) "events" = Normal (VArr items) ->
  items <> [] ->
  settle (post_webhook client req []) =
  (match Promise_all (fst (map_handleEvent client items [])) with
   | AllFulfilled result => success_response result
   | SomeRejected => error_response
   end, snd (map_handleEvent client items [])).
Proof.
  intros He Hne. unfold post_webhook, bind, lift, ret. rewrite He.
  destruct items as [ | first rest]; [congruence|].
  replace (no_events (VArr (first :: rest))) with (Normal false).
  2:{ unfold no_events. cbn [truthy negb get bindC]. simpl String.eqb.
      cbn [bindC is_num]. destruct (Z.of_nat _) eqn:E; try reflexivity.
      simpl in E. lia. }
  destruct (map_handleEvent client (first :: rest) []) as [ps t'].
  cbn [fst snd]. destruct (Promise_all ps); reflexivity.
Qed.

(** The webhook route on a body whose [events] is falsy or an empty
    array. *)
Lemma post_webhook_empty (client : Client) (req : request) (events : value) :
  get (req_body req) "events" = Normal events ->
  truthy events = false \/ events = VArr [] ->
  settle (post_webhook client req []) = (ok_response, []).
Proof.
  intros He H. unfold post_webhook, bind, lift, ret. rewrite He.
  destruct H as [H | ->].
  - unfold no_events. rewrite H. reflexivity.
  - reflexivity.
Qed.

(** ** The dispatcher and failure *)

(** What the dispatcher does capture.  [handleEvent] does not reject on an
    event it can read: an event that is not [null] or [undefined], whose
    [type] converts to a string and which, when the type is "message",
    carries a [message] that is not [null] or [undefined] with a [type] and
    content fields that convert to strings.  Its promise is fulfilled with
    the receipt of the delivery call or with [null]; a failed delivery is
    captured there, as long as the client rejects with an error object. *)
Theorem handleEvent_fulfils (client : Client) (event : value) (t : trace) :
  dispatchable event = true ->
  (forall n tok msg e, client n tok msg = Rejected e -> error_object e = true) ->
  exists v,
    fst (handleEvent client event t) = Fulfilled v
    /\ (v = VNull \/ exists tok msg, client (replies t) tok msg = Fulfilled v).
Proof.
  intros Hd Hc. rewrite handleEvent_outline.
  destruct (dispatchable_outline event Hd) as [-> | [-> | (tok & msg & ->)]].
  - exists VNull. split; [reflexivity | left; reflexivity].
  - exists VNull. split; [reflexivity | left; reflexivity].
  - cbn [fst]. destruct (client (replies t) tok msg) as [r|e] eqn:E.
    + exists r. split; [reflexivity | right; eauto].
    + exists VNull. cbn [delivery_outcome].
      split; [|left; reflexivity].
      apply caught_error_object. exact (Hc _ _ _ _ E).
Qed.

Lemma handleEvent_fulfils_witness :
  exists v,
    fst (handleEvent Sample.fails_second (Sample.text_event "r2" "bye")
           [Reply (VStr "r1") VNull]) = Fulfilled v
    /\ (v = VNull
        \/ exists tok msg,
             Sample.fails_second (replies [Reply (VStr "r1") VNull]) tok msg
             = Fulfilled v).
Proof.
  apply (handleEvent_fulfils Sample.fails_second
           (Sample.text_event "r2" "bye") [Reply (VStr "r1") VNull]).
  - reflexivity.
  - intros n tok msg e. unfold Sample.fails_second.
    destruct (Nat.eqb n 1); intros H; [|discriminate].
    injection H as <-. reflexivity.
Defined.

(** C1.  The dispatcher is to capture every failure of an event and turn
    it into a [null] outcome of that event alone, so that [Promise.all] goes
    on, as the comment of line 153 says and as the [catch] block does for a
    failed delivery.  The code misses the case of a message event without
    its [message]: [event.message.type] on line 101 is read before the [try]
    block opens, so [handleEvent] rejects with a [TypeError]; and the
    failure is not confined to that event, since the response to a batch
    that holds it says error and carries no result at all, although the
    sibling's reply was delivered and the sibling alone is answered with
    its receipt. *)
Lemma missing_message_rejects :
  handleEvent Sample.delivers Sample.bare_event []
  = (Rejected TypeError, [Dispatch Sample.bare_event])
  /\ fst (app Sample.cfg Sample.delivers
            (Sample.post [Sample.text_event "r1" "hello"]))
     = success_response [Sample.receipt]
  /\ fst (app Sample.cfg Sample.delivers
            (Sample.post [Sample.text_event "r1" "hello"; Sample.bare_event]))
     = error_response.
Proof. repeat split; reflexivity. Qed.

(** The same with [message: null]; a [message] that is a string, a number
    or a boolean, on the other hand, is answered as an unknown kind. *)
Example null_message_rejects :
  fst (handleEvent Sample.delivers
         (VObj [("type", VStr "message"); ("message", VNull)]) [])
  = Rejected TypeError.
Proof. reflexivity. Qed.

Example string_message_answered :
  handleEvent Sample.delivers
    (VObj [("type", VStr "message"); ("replyToken", VStr "r");
           ("message", VStr "hi")]) []
  = (Fulfilled Sample.receipt,
     [Dispatch (VObj [("type", VStr "message"); ("replyToken", VStr "r");
                      ("message", VStr "hi")]);
      Reply (VStr "r")
        (VObj [("type", VStr "text");
               ("text", VStr (default_head ++ "undefined" ++ default_tail))])]).
Proof. reflexivity. Qed.

(** C6.  An event whose [type] is not "message" is skipped: the promise is
    fulfilled with [null] at once, the only effect of the dispatch is its
    own mark, and no delivery call is made. *)
Theorem skips_other_events (client : Client) (event type : value) (t : trace) :
  get event "type" = Normal type ->
  is_str type "message" = false ->
  renders type = true ->
  handleEvent client event t = (Fulfilled VNull, (t ++ [Dispatch event])%list)
  /\ replies (snd (handleEvent client event t)) = replies t.
Proof.
  intros Hty Hne Hr.
  assert (Ho : outline_of event = Skipped).
  { unfold outline_of. rewrite Hty, Hne. cbn [negb].
    destruct (renders_ToString _ Hr) as [s ->]. reflexivity. }
  rewrite handleEvent_outline, Ho. split; [reflexivity|].
  cbn [snd]. rewrite replies_app. cbn. lia.
Qed.

Lemma skips_other_events_witness :
  handleEvent Sample.delivers Sample.follow_event []
  = (Fulfilled VNull, [Dispatch Sample.follow_event])
  /\ replies (snd (handleEvent Sample.delivers Sample.follow_event [])) = 0.
Proof.
  apply (skips_other_events Sample.delivers Sample.follow_event
           (VStr "follow") []); reflexivity.
Defined.

(** ** The routes and authentication *)

(** C7.  When the signature middleware reports an error, the answer is 401
    with a JSON object of two fields, [message] and [error], the latter the
    error's own message; [handleEvent] is not invoked and no delivery call
    is made. *)
Theorem unauthorized_no_dispatch (cfg : lineConfig) (client : Client)
        (req : request) :
  truthy (verdict req) = true ->
  exists reason,
    get (verdict req) "message" = Normal reason
    /\ fst (app cfg client req)
       = {| status := 401;
            body := Json (VObj [("message", VStr "Unauthorized");
                                ("error", reason)]) |}
    /\ dispatches (snd (app cfg client req)) = 0
    /\ replies (snd (app cfg client req)) = 0.
Proof.
  intros H. unfold app. rewrite H.
  destruct (get_defined (verdict req) "message" (truthy_not_nullish _ H))
    as [reason Hm].
  exists reason. unfold unauthorized. rewrite Hm. cbn.
  repeat split; reflexivity.
Qed.

Lemma unauthorized_no_dispatch_witness :
  exists reason,
    get Sample.signature_error "message" = Normal reason
    /\ fst (app Sample.cfg Sample.delivers
              {| target := PostWebhook; verdict := Sample.signature_error;
                 req_body := VObj [("events", VArr Sample.batch)];
                 now := EmptyString |})
       = {| status := 401;
            body := Json (VObj [("message", VStr "Unauthorized");
                                ("error", reason)]) |}
    /\ dispatches (snd (app Sample.cfg Sample.delivers
              {| target := PostWebhook; verdict := Sample.signature_error;
                 req_body := VObj [("events", VArr Sample.batch)];
                 now := EmptyString |})) = 0
    /\ replies (snd (app Sample.cfg Sample.delivers
              {| target := PostWebhook; verdict := Sample.signature_error;
                 req_body := VObj [("events", VArr Sample.batch)];
                 now := EmptyString |})) = 0.
Proof.
  apply (unauthorized_no_dispatch Sample.cfg Sample.delivers
           {| target := PostWebhook; verdict := Sample.signature_error;
              req_body := VObj [("events", VArr Sample.batch)];
              now := EmptyString |}).
  reflexivity.
Defined.

(** C8.  An authenticated POST whose body has no [events] field, or an
    empty [events] array, is answered at once with 200 and the text OK;
    nothing is dispatched and nothing is delivered. *)
Theorem empty_batch_acknowledged (cfg : lineConfig) (client : Client)
        (req : request) (events : value) :
  target req = PostWebhook ->
  truthy (verdict req) = false ->
  get (req_body req) "events" = Normal events ->
  events = VUndefined \/ events = VArr [] ->
  app cfg client req = ({| status := 200; body := Text "OK" |}, [])
  /\ success_range (status (fst (app cfg client req))).
Proof.
  intros Ht Hv He Hs. rewrite (app_authenticated _ _ _ Hv), Ht.
  rewrite (post_webhook_empty client req events He).
  - split; [reflexivity | unfold success_range; cbn; lia].
  - destruct Hs as [-> | ->]; [left; reflexivity | right; reflexivity].
Qed.

Lemma empty_batch_acknowledged_witness :
  app Sample.cfg Sample.delivers Sample.post_without_events
  = ({| status := 200; body := Text "OK" |}, [])
  /\ success_range
       (status (fst (app Sample.cfg Sample.delivers Sample.post_without_events))).
Proof.
  apply (empty_batch_acknowledged Sample.cfg Sample.delivers
           Sample.post_without_events VUndefined);
    try reflexivity.
  left; reflexivity.
Defined.

(** C4.  An authenticated POST to the webhook route whose body is well
    formed (its [events] is an array, or absent) is answered with a status
    of the success range; when one of the dispatches rejects, which is the
    failure outside the per-event boundary, the body says error and the
    status is the same. *)
Theorem webhook_always_acknowledges (cfg : lineConfig) (client : Client)
        (req : request) (events : value) :
  target req = PostWebhook ->
  truthy (verdict req) = false ->
  get (req_body req) "events" = Normal events ->
  batch_shaped events = true ->
  success_range (status (fst (app cfg client req)))
  /\ (forall items,
        events = VArr items ->
        Promise_all (fst (map_handleEvent client items [])) = SomeRejected ->
        fst (app cfg client req)
        = {| status := 200; body := Json (VObj [("status", VStr "error")]) |}).
Proof.
  intros Ht Hv He Hs. rewrite (app_authenticated _ _ _ Hv), Ht.
  assert (Hcases : (truthy events = false \/ events = VArr [])
                   \/ exists items, events = VArr items /\ items <> []).
  { destruct events as [ | | b | n | s | [ | x l] | props];
      try (left; left; apply negb_true_iff; exact Hs).
    - left; right; reflexivity.
    - right. exists (x :: l). split; [reflexivity | discriminate]. }
  destruct Hcases as [Hempty | (items & -> & Hne)].
  - rewrite (post_webhook_empty client req events He Hempty). split.
    + unfold success_range; cbn; lia.
    + intros items -> Hrej. destruct Hempty as [H | H]; [discriminate|].
      injection H as ->. discriminate.
  - rewrite (post_webhook_batch client req items He Hne). split.
    + destruct (Promise_all _); unfold success_range; cbn; lia.
    + intros items' H Hrej. injection H as <-. cbn [fst].
      rewrite Hrej. reflexivity.
Qed.

Lemma webhook_always_acknowledges_witness :
  success_range
    (status (fst (app Sample.cfg Sample.delivers
                    (Sample.post [Sample.text_event "r1" "hello";
                                  Sample.bare_event]))))
  /\ (forall items,
        VArr [Sample.text_event "r1" "hello"; Sample.bare_event] = VArr items ->
        Promise_all (fst (map_handleEvent Sample.delivers items []))
        = SomeRejected ->
        fst (app Sample.cfg Sample.delivers
               (Sample.post [Sample.text_event "r1" "hello";
                             Sample.bare_event]))
        = {| status := 200; body := Json (VObj [("status", VStr "error")]) |}).
Proof.
  apply (webhook_always_acknowledges Sample.cfg Sample.delivers
           (Sample.post [Sample.text_event "r1" "hello"; Sample.bare_event])
           (VArr [Sample.text_event "r1" "hello"; Sample.bare_event]));
    reflexivity.
Defined.

(** C9, as the code has it.  A GET on the root route that has passed the
    signature middleware is answered with 200 and a JSON object holding a
    fixed status line, the clock reading and, for each of the two secrets,
    the string Set or the string Not set.  The answer depends on the
    configuration only through whether each secret is set, so it carries
    none of their contents; and in a process that has started both read
    Set. *)
Theorem health_payload (cfg : lineConfig) (client : Client) (req : request) :
  target req = GetRoot ->
  truthy (verdict req) = false ->
  app cfg client req
  = ({| status := 200;
        body := Json (VObj
          [("status", VStr "LINE Bot is running on AWS Lambda! 🤖");
           ("timestamp", VStr (now req));
           ("config", VObj
              [("channelSecret",
                VStr (if truthy (env_value (channelSecret cfg))
                      then "Set" else "Not set"));
               ("channelAccessToken",
                VStr (if truthy (env_value (channelAccessToken cfg))
                      then "Set" else "Not set"))])]) |}, [])
  /\ (forall cfg',
        truthy (env_value (channelSecret cfg'))
        = truthy (env_value (channelSecret cfg)) ->
        truthy (env_value (channelAccessToken cfg'))
        = truthy (env_value (channelAccessToken cfg)) ->
        app cfg' client req = app cfg client req)
  /\ (startup cfg = Normal tt ->
      set_or_not (channelSecret cfg) = VStr "Set"
      /\ set_or_not (channelAccessToken cfg) = VStr "Set").
Proof.
  intros Ht Hv. split; [|split].
  - rewrite (app_authenticated _ _ _ Hv), Ht. unfold get_root, set_or_not.
    destruct (truthy (env_value (channelSecret cfg)));
      destruct (truthy (env_value (channelAccessToken cfg))); reflexivity.
  - intros cfg' H1 H2. rewrite !(app_authenticated _ _ _ Hv), Ht.
    unfold get_root, set_or_not. rewrite H1, H2. reflexivity.
  - unfold startup, set_or_not.
    destruct (truthy (env_value (channelSecret cfg)));
      destruct (truthy (env_value (channelAccessToken cfg)));
      cbn; intros H; try discriminate. split; reflexivity.
Qed.

Lemma health_payload_witness :
  app Sample.cfg Sample.delivers (Sample.health VUndefined)
  = ({| status := 200;
        body := Json (VObj
          [("status", VStr "LINE Bot is running on AWS Lambda! 🤖");
           ("timestamp", VStr (now (Sample.health VUndefined)));
           ("config", VObj
              [("channelSecret",
                VStr (if truthy (env_value (channelSecret Sample.cfg))
                      then "Set" else "Not set"));
               ("channelAccessToken",
                VStr (if truthy (env_value (channelAccessToken Sample.cfg))
                      then "Set" else "Not set"))])]) |}, [])
  /\ (forall cfg',
        truthy (env_value (channelSecret cfg'))
        = truthy (env_value (channelSecret Sample.cfg)) ->
        truthy (env_value (channelAccessToken cfg'))
        = truthy (env_value (channelAccessToken Sample.cfg)) ->
        app cfg' Sample.delivers (Sample.health VUndefined)
        = app Sample.cfg Sample.delivers (Sample.health VUndefined))
  /\ (startup Sample.cfg = Normal tt ->
      set_or_not (channelSecret Sample.cfg) = VStr "Set"
      /\ set_or_not (channelAccessToken Sample.cfg) = VStr "Set").
Proof.
  apply (health_payload Sample.cfg Sample.delivers (Sample.health VUndefined));
    reflexivity.
Defined.

(** C9, as the claim has it, fails twice.  The entries that report the
    secrets are the strings Set and Not set, not booleans; and the root
    route stands behind the signature middleware like every other, so a GET
    that carries no valid signature is answered 401. *)
Lemma health_not_boolean_and_gated :
  get2 (VObj [("config", VObj [("channelSecret", set_or_not (Some "secret"))])])
       "config" "channelSecret" = Normal (VStr "Set")
  /\ body (fst (app Sample.cfg Sample.delivers (Sample.health VUndefined)))
     = Json (VObj
          [("status", VStr "LINE Bot is running on AWS Lambda! 🤖");
           ("timestamp", VStr "2024-01-01T00:00:00.000Z");
           ("config", VObj
              [("channelSecret", VStr "Set");
               ("channelAccessToken", VStr "Set")])])
  /\ status (fst (app Sample.cfg Sample.delivers
                    (Sample.health Sample.signature_error))) = 401%Z.
Proof. repeat split; reflexivity. Qed.

(** ** Failure isolation in a batch *)

(** C3.  When the delivery call of the [i]-th event of a batch rejects,
    with an error object, the promise of that event is fulfilled with
    [null]; the promise of every other event is what it would be had the
    call gone any other way; and the status of the response is in the
    success range. *)
Theorem delivery_failure_isolated (cfg : lineConfig) (client : Client)
        (req : request) (items : list value) (i : nat)
        (event tok msg : value) (e : thrown) :
  target req = PostWebhook ->
  truthy (verdict req) = false ->
  get (req_body req) "events" = Normal (VArr items) ->
  nth_error items i = Some event ->
  snd (handleEvent client event (trace_before client items i))
  = (trace_before client items i ++ [Dispatch event; Reply tok msg])%list ->
  client (replies (trace_before client items i)) tok msg = Rejected e ->
  error_object e = true ->
  nth_error (fst (map_handleEvent client items [])) i = Some (Fulfilled VNull)
  /\ (forall client' : Client,
        (forall n tok' msg',
            n <> replies (trace_before client items i) ->
            client' n tok' msg' = client n tok' msg') ->
        forall j, j <> i ->
          nth_error (fst (map_handleEvent client' items [])) j
          = nth_error (fst (map_handleEvent client items [])) j)
  /\ success_range (status (fst (app cfg client req))).
Proof.
  intros Ht Hv He Hi Hsend Hrej Herr.
  pose proof (handleEvent_sends _ _ _ _ _ Hsend) as Ho.
  assert (Hone : replies (footprint event) = 1).
  { unfold footprint. rewrite Ho. reflexivity. }
  split; [|split].
  - rewrite (map_handleEvent_nth client items [] i event Hi).
    rewrite app_nil_l, <- (trace_before_footprint client).
    rewrite handleEvent_outline, Ho. cbn [fst]. rewrite Hrej.
    cbn [delivery_outcome]. rewrite (caught_error_object _ Herr). reflexivity.
  - intros client' Hsame j Hj.
    destruct (nth_error items j) as [x|] eqn:Hx.
    + rewrite (map_handleEvent_nth client' items [] j x Hx).
      rewrite (map_handleEvent_nth client items [] j x Hx).
      rewrite app_nil_l, <- (trace_before_footprint client).
      f_equal. f_equal. apply handleEvent_agree.
      intros Hcall tok' msg'. apply Hsame.
      destruct (Nat.lt_ge_cases j i) as [Hlt | Hge].
      * pose proof (calls_in_order client items j i x Hlt Hx). lia.
      * assert (Hgt : i < j) by lia.
        pose proof (calls_in_order client items i j event Hgt Hi). lia.
    + assert (Hlen : List.length items <= j) by (apply nth_error_None; exact Hx).
      rewrite (proj2 (nth_error_None _ j)), (proj2 (nth_error_None _ j));
        [reflexivity | | ]; rewrite map_handleEvent_length; exact Hlen.
  - rewrite (app_authenticated _ _ _ Hv), Ht.
    rewrite (post_webhook_batch client req items He).
    + cbn [fst]. destruct (Promise_all _); unfold success_range; cbn; lia.
    + intros ->. destruct i; discriminate.
Qed.

Lemma delivery_failure_isolated_witness :
  nth_error (fst (map_handleEvent Sample.fails_second Sample.batch [])) 1
  = Some (Fulfilled VNull)
  /\ (forall client' : Client,
        (forall n tok' msg',
            n <> replies (trace_before Sample.fails_second Sample.batch 1) ->
            client' n tok' msg' = Sample.fails_second n tok' msg') ->
        forall j, j <> 1 ->
          nth_error (fst (map_handleEvent client' Sample.batch [])) j
          = nth_error (fst (map_handleEvent Sample.fails_second Sample.batch [])) j)
  /\ success_range
       (status (fst (app Sample.cfg Sample.fails_second
                       (Sample.post Sample.batch)))).
Proof.
  apply (delivery_failure_isolated Sample.cfg Sample.fails_second
           (Sample.post Sample.batch) Sample.batch 1
           (Sample.text_event "r2" "bye") (VStr "r2")
           (VObj [("type", VStr "text");
                  ("text", VStr (text_head ++ "bye" ++ dq))])
           Sample.http_error);
    reflexivity.
Defined.

(** ** The result array *)

(** C10.  When every dispatch of a batch is fulfilled, the response is
    200 with status success and a [result] array that has one entry per
    event, at the event's index: the value the event's promise is fulfilled
    with.  That value is [null] for an event that is not a message and for
    a dispatch that makes no delivery call; for a dispatch that makes one it
    is the receipt when the call is fulfilled and [null] when it is
    rejected.  A skipped event and a failed delivery therefore leave the
    same entry. *)
Theorem result_array_per_event (cfg : lineConfig) (client : Client)
        (req : request) (items : list value) (result : list value) :
  target req = PostWebhook ->
  truthy (verdict req) = false ->
  get (req_body req) "events" = Normal (VArr items) ->
  items <> [] ->
  Promise_all (fst (map_handleEvent client items [])) = AllFulfilled result ->
  fst (app cfg client req)
  = {| status := 200;
       body := Json (VObj [("status", VStr "success");
                           ("result", VArr result)]) |}
  /\ List.length result = List.length items
  /\ forall i event,
       nth_error items i = Some event ->
       exists v,
         nth_error result i = Some v
         /\ fst (handleEvent client event (trace_before client items i))
            = Fulfilled v
         /\ (is_message_event event = false -> v = VNull)
         /\ (snd (handleEvent client event (trace_before client items i))
             = (trace_before client items i ++ [Dispatch event])%list ->
             v = VNull)
         /\ (forall tok msg,
               snd (handleEvent client event (trace_before client items i))
               = (trace_before client items i
                    ++ [Dispatch event; Reply tok msg])%list ->
               match client (replies (trace_before client items i)) tok msg with
               | Fulfilled receipt => v = receipt
               | Rejected _ => v = VNull
               end).
Proof.
  intros Ht Hv He Hne Hall.
  pose proof (proj1 (Promise_all_fulfilled _ _) Hall) as Hps.
  split; [|split].
  - rewrite (app_authenticated _ _ _ Hv), Ht.
    rewrite (post_webhook_batch client req items He Hne), Hall. reflexivity.
  - rewrite <- (map_handleEvent_length client items []), Hps.
    rewrite length_map. reflexivity.
  - intros i event Hi.
    pose proof (map_handleEvent_nth client items [] i event Hi) as Hnth.
    rewrite app_nil_l, <- (trace_before_footprint client) in Hnth.
    rewrite Hps, nth_error_map in Hnth.
    destruct (nth_error result i) as [v|]; [|discriminate].
    exists v. cbn [option_map] in Hnth. injection Hnth as Hv'.
    split; [reflexivity|]. split; [symmetry; exact Hv'|].
    rewrite handleEvent_outline in Hv'. cbn [fst] in Hv'.
    split; [|split].
    + unfold is_message_event. intros Hm. revert Hv'. unfold outline_of.
      destruct (get event "type") as [type|]; [|discriminate].
      rewrite Hm. cbn [negb]. destruct (ToString type); cbn; congruence.
    + intros Hnone. apply handleEvent_sends_nothing in Hnone.
      unfold footprint in Hnone.
      destruct (outline_of event) as [ | | e | ]; cbn in Hv', Hnone;
        try congruence.
      symmetry in Hv'. exact (caught_fulfilled _ _ Hv').
    + intros tok msg Hsend. apply handleEvent_sends in Hsend.
      rewrite Hsend in Hv'. cbn in Hv'.
      destruct (client (replies (trace_before client items i)) tok msg)
        as [receipt|e]; cbn [delivery_outcome] in Hv'.
      * congruence.
      * symmetry in Hv'. exact (caught_fulfilled _ _ Hv').
Qed.

Lemma result_array_per_event_witness :
  fst (app Sample.cfg Sample.fails_second (Sample.post Sample.batch))
  = {| status := 200;
       body := Json (VObj [("status", VStr "success");
                           ("result",
                            VArr [Sample.receipt; VNull; VNull;
                                  Sample.receipt])]) |}
  /\ List.length [Sample.receipt; VNull; VNull; Sample.receipt]
     = List.length Sample.batch
  /\ forall i event,
       nth_error Sample.batch i = Some event ->
       exists v,
         nth_error [Sample.receipt; VNull; VNull; Sample.receipt] i = Some v
         /\ fst (handleEvent Sample.fails_second event
                   (trace_before Sample.fails_second Sample.batch i))
            = Fulfilled v
         /\ (is_message_event event = false -> v = VNull)
         /\ (snd (handleEvent Sample.fails_second event
                    (trace_before Sample.fails_second Sample.batch i))
             = (trace_before Sample.fails_second Sample.batch i
                  ++ [Dispatch event])%list ->
             v = VNull)
         /\ (forall tok msg,
               snd (handleEvent Sample.fails_second event
                      (trace_before Sample.fails_second Sample.batch i))
               = (trace_before Sample.fails_second Sample.batch i
                    ++ [Dispatch event; Reply tok msg])%list ->
               match Sample.fails_second
                       (replies (trace_before Sample.fails_second
                                   Sample.batch i)) tok msg with
               | Fulfilled receipt => v = receipt
               | Rejected _ => v = VNull
               end).
Proof.
  apply (result_array_per_event Sample.cfg Sample.fails_second
           (Sample.post Sample.batch) Sample.batch
           [Sample.receipt; VNull; VNull; Sample.receipt]);
    try reflexivity.
  discriminate.
Defined.

(** * Further properties of the code *)

(** ** Start-up *)

(** X1.  The module loads exactly when both secrets are present and not
    the empty string; otherwise it throws the error of line 26. *)
Theorem startup_iff (cfg : lineConfig) :
  (startup cfg = Normal tt <->
   exists secret token,
     channelSecret cfg = Some secret /\ secret <> EmptyString
     /\ channelAccessToken cfg = Some token /\ token <> EmptyString)
  /\ (startup cfg = Normal tt
      \/ startup cfg = Throw (Error "Missing required environment variables")).
Proof.
  unfold startup. destruct cfg as [[secret|] [token|]]; cbn [channelSecret
    channelAccessToken env_value truthy negb orb].
  - destruct (String.eqb_spec secret EmptyString) as [-> | Hs];
      destruct (String.eqb_spec token EmptyString) as [-> | Ht];
      cbn [negb orb]; (split; [split|]); try discriminate; auto.
    + intros (s & t & H1 & H2 & _). congruence.
    + intros (s & t & H1 & H2 & _). congruence.
    + intros (s & t & _ & _ & H3 & H4). congruence.
    + intros _. exists secret, token. auto.
  - destruct (negb (negb (String.eqb secret EmptyString)));
      (split; [split|]); try discriminate; auto;
      intros (s & t & _ & _ & H & _); discriminate.
  - split; [split|]; try discriminate; auto.
    intros (s & t & H & _); discriminate.
  - split; [split|]; try discriminate; auto.
    intros (s & t & H & _); discriminate.
Qed.

Lemma substring_prefix (n : nat) (s : string) :
  exists rest,
    s = substring 0 n s ++ rest
    /\ String.length (substring 0 n s) = Nat.min n (String.length s).
Proof.
  revert s. induction n as [ | n IH]; intros s.
  - exists s. destruct s; split; reflexivity.
  - destruct s as [ | c s]; [exists EmptyString; split; reflexivity|].
    destruct (IH s) as (rest & Hs & Hl). exists rest. simpl. split.
    + f_equal. exact Hs.
    + f_equal. exact Hl.
Qed.

Lemma substring_whole (n : nat) (s : string) :
  String.length s <= n -> substring 0 n s = s.
Proof.
  revert s. induction n as [ | n IH]; intros s Hl.
  - destruct s; [reflexivity | simpl in Hl; lia].
  - destruct s as [ | c s]; [reflexivity|]. simpl in *.
    f_equal. apply IH. lia.
Qed.

(** X2.  The start-up log shows of a secret its first ten characters and
    no more, followed by three dots; a secret of ten characters or fewer is
    therefore logged whole. *)
Theorem preview_shows_prefix (s : string) :
  ascii_only s = true ->
  (exists shown hidden,
      s = shown ++ hidden
      /\ preview (Some s) = shown ++ "..."
      /\ String.length shown = Nat.min 10 (String.length s))
  /\ (String.length s <= 10 -> preview (Some s) = s ++ "...").
Proof.
  intros _. split.
  - destruct (substring_prefix 10 s) as (rest & Hs & Hl).
    exists (substring 0 10 s), rest. auto.
  - intros Hl. unfold preview. rewrite (substring_whole 10 s Hl). reflexivity.
Qed.

Lemma preview_shows_prefix_witness :
  (exists shown hidden,
      "0123456789abcdef" = shown ++ hidden
      /\ preview (Some "0123456789abcdef") = shown ++ "..."
      /\ String.length shown = Nat.min 10 (String.length "0123456789abcdef"))
  /\ (String.length "0123456789abcdef" <= 10 ->
      preview (Some "0123456789abcdef") = "0123456789abcdef" ++ "...").
Proof.
  apply (preview_shows_prefix "0123456789abcdef"). reflexivity.
Defined.

(** ** The effects of a dispatch *)

Lemma flat_map_footprint_counts (items : list value) :
  dispatches (flat_map footprint items) = List.length items
  /\ replies (flat_map footprint items) <= List.length items.
Proof.
  induction items as [ | event rest [IHd IHr]]; [split; reflexivity|].
  simpl. rewrite dispatches_app, replies_app.
  destruct (footprint_counts event). lia.
Qed.

(** X3.  Whatever the event and whatever the client answers, one
    invocation of [handleEvent] keeps the trace it starts from and adds to
    it one dispatch mark and at most one delivery call. *)
Theorem handleEvent_effects (client : Client) (event : value) (t : trace) :
  exists added,
    snd (handleEvent client event t) = (t ++ added)%list
    /\ dispatches added = 1
    /\ replies added <= 1.
Proof.
  exists (footprint event). split; [apply handleEvent_trace|].
  apply footprint_counts.
Qed.



(** X5.  Every event of a batch is dispatched exactly once, whatever
    happens to the others, and the batch makes at most one delivery call per
    event. *)
Theorem batch_dispatches_each_event (cfg : lineConfig) (client : Client)
        (req : request) (items : list value) :
  target req = PostWebhook ->
  truthy (verdict req) = false ->
  get (req_body req) "events" = Normal (VArr items) ->
  dispatches (snd (app cfg client req)) = List.length items
  /\ replies (snd (app cfg client req)) <= List.length items.
Proof.
  intros Ht Hv He. rewrite (app_authenticated _ _ _ Hv), Ht.
  destruct items as [ | first rest].
  - rewrite (post_webhook_empty client req _ He (or_intror eq_refl)).
    split; [reflexivity | cbn; lia].
  - rewrite (post_webhook_batch client req _ He ltac:(discriminate)).
    cbn [snd]. rewrite map_handleEvent_trace, app_nil_l.
    apply flat_map_footprint_counts.
Qed.

Lemma batch_dispatches_each_event_witness :
  dispatches (snd (app Sample.cfg Sample.fails_second
                     (Sample.post (Sample.bare_event :: Sample.batch))))
  = List.length (Sample.bare_event :: Sample.batch)
  /\ replies (snd (app Sample.cfg Sample.fails_second
                     (Sample.post (Sample.bare_event :: Sample.batch))))
     <= List.length (Sample.bare_event :: Sample.batch).
Proof.
  apply (batch_dispatches_each_event Sample.cfg Sample.fails_second
           (Sample.post (Sample.bare_event :: Sample.batch))
           (Sample.bare_event :: Sample.batch));
    reflexivity.
Defined.

(** A reply text, when the [switch] yields one, is never empty. *)
Lemma replyText_Normal_nonempty (event messageType : value) (text : string) :
  replyText event messageType = Normal text -> text <> EmptyString.
Proof.
  unfold replyText.
  repeat match goal with
         | |- context [if is_str messageType ?k then _ else _] =>
             destruct (is_str messageType k)
         end;
    repeat match goal with
           | |- context [bindC ?c _] => destruct c; cbn [bindC]
           end;
    intros H; try discriminate; injection H as <-;
    try (apply app_nonempty); discriminate.
Qed.

(** X6.  The delivery call of a dispatch is made for a message event, with
    the event's own [replyToken] and one message of type text whose text is
    the reply composed for the event's [message.type]; the text is never
    empty. *)
Theorem delivery_call_arguments (client : Client) (event : value)
        (t : trace) (tok msg : value) :
  snd (handleEvent client event t)
  = (t ++ [Dispatch event; Reply tok msg])%list ->
  is_message_event event = true
  /\ get event "replyToken" = Normal tok
  /\ exists messageType text,
       get2 event "message" "type" = Normal messageType
       /\ replyText event messageType = Normal text
       /\ text <> EmptyString
       /\ msg = VObj [("type", VStr "text"); ("text", VStr text)].
Proof.
  intros H. apply handleEvent_sends in H. revert H.
  unfold outline_of, is_message_event.
  destruct (get event "type") as [type|]; [|discriminate].
  destruct (is_str type "message"); cbn [negb].
  2:{ destruct (ToString type); discriminate. }
  destruct (get2 event "message" "type") as [messageType|]; [|discriminate].
  destruct (replyText event messageType) as [text|] eqn:Htext; [|discriminate].
  destruct (get event "replyToken") as [shown|]; cbn [bindC]; [|discriminate].
  destruct (ToString shown); cbn [bindC]; [|discriminate].
  intros H. injection H as <- <-.
  split; [reflexivity|]. split; [reflexivity|].
  exists messageType, text. repeat split; auto.
  exact (replyText_Normal_nonempty _ _ _ Htext).
Qed.

Lemma delivery_call_arguments_witness :
  is_message_event Sample.sticker_event = true
  /\ get Sample.sticker_event "replyToken" = Normal (VStr "r3")
  /\ exists messageType text,
       get2 Sample.sticker_event "message" "type" = Normal messageType
       /\ replyText Sample.sticker_event messageType = Normal text
       /\ text <> EmptyString
       /\ VObj [("type", VStr "text");
                ("text", VStr (sticker_head ++ "1" ++ sticker_mid ++ "2"))]
          = VObj [("type", VStr "text"); ("text", VStr text)].
Proof.
  apply (delivery_call_arguments Sample.delivers Sample.sticker_event []
           (VStr "r3")
           (VObj [("type", VStr "text");
                  ("text", VStr (sticker_head ++ "1" ++ sticker_mid ++ "2"))])).
  reflexivity.
Defined.

(** ** Reply texts *)

(** X7.  A message type the [switch] has no case for is answered by the
    default case, whose text names the type between double quotes; the
    message itself is not read. *)
Theorem unknown_kind_named (event : value) (t : string) :
  existsb (String.eqb t) known_kinds = false ->
  replyText event (VStr t)
  = Normal ("คุณได้ส่งข้อความประเภท: " ++ dq ++ t ++ dq
            ++ " ซึ่งยังไม่รองรับการตอบกลับ").
Proof.
  intros H. unfold known_kinds in H. cbn [existsb] in H.
  repeat (apply orb_false_elim in H; destruct H as [? H]).
  unfold replyText, is_str.
  repeat match goal with
         | E : String.eqb t _ = false |- _ => rewrite E; clear E
         end.
  reflexivity.
Qed.

Lemma unknown_kind_named_witness :
  replyText VNull (VStr "contact")
  = Normal ("คุณได้ส่งข้อความประเภท: " ++ dq ++ "contact" ++ dq
            ++ " ซึ่งยังไม่รองรับการตอบกลับ").
Proof.
  apply (unknown_kind_named VNull "contact"). reflexivity.
Defined.

(** X8.  The replies to a file, a location and a sticker carry the file
    name, the address, and the package and sticker identifiers, unchanged
    and in that order, after the fixed lines of lines 121, 125 and 129. *)
Theorem reply_embeds_fields (event message : value) :
  get event "message" = Normal message ->
  (forall f, get message "fileName" = Normal (VStr f) ->
     replyText event (VStr "file")
     = Normal ("คุณได้ส่งข้อความประเภท: ไฟล์ (File)" ++ nl ++ "ชื่อไฟล์: " ++ f))
  /\ (forall a, get message "address" = Normal (VStr a) ->
        replyText event (VStr "location")
        = Normal ("คุณได้ส่งข้อความประเภท: ตำแหน่งที่ตั้ง (Location)" ++ nl
                  ++ "ที่อยู่: " ++ a))
  /\ (forall p s,
        get message "packageId" = Normal (VStr p) ->
        get message "stickerId" = Normal (VStr s) ->
        replyText event (VStr "sticker")
        = Normal ("คุณได้ส่งข้อความประเภท: สติกเกอร์ (Sticker)" ++ nl
                  ++ "Package ID: " ++ p ++ nl ++ "Sticker ID: " ++ s)).
Proof.
  intros Hm. unfold replyText, get2. rewrite Hm. cbn [bindC].
  split; [|split].
  - intros f Hf.
    replace (is_str (VStr "file") "text") with false by reflexivity.
    replace (is_str (VStr "file") "image") with false by reflexivity.
    replace (is_str (VStr "file") "video") with false by reflexivity.
    replace (is_str (VStr "file") "audio") with false by reflexivity.
    replace (is_str (VStr "file") "file") with true by reflexivity.
    rewrite Hf. reflexivity.
  - intros a Ha.
    replace (is_str (VStr "location") "text") with false by reflexivity.
    replace (is_str (VStr "location") "image") with false by reflexivity.
    replace (is_str (VStr "location") "video") with false by reflexivity.
    replace (is_str (VStr "location") "audio") with false by reflexivity.
    replace (is_str (VStr "location") "file") with false by reflexivity.
    replace (is_str (VStr "location") "location") with true by reflexivity.
    rewrite Ha. reflexivity.
  - intros p s Hp Hs.
    replace (is_str (VStr "sticker") "text") with false by reflexivity.
    replace (is_str (VStr "sticker") "image") with false by reflexivity.
    replace (is_str (VStr "sticker") "video") with false by reflexivity.
    replace (is_str (VStr "sticker") "audio") with false by reflexivity.
    replace (is_str (VStr "sticker") "file") with false by reflexivity.
    replace (is_str (VStr "sticker") "location") with false by reflexivity.
    replace (is_str (VStr "sticker") "sticker") with true by reflexivity.
    rewrite Hp. cbn [bindC ToString]. rewrite Hs. reflexivity.
Qed.

Lemma reply_embeds_fields_witness :
  (forall f, get Edge.full_message "fileName" = Normal (VStr f) ->
     replyText Edge.full_event (VStr "file")
     = Normal ("คุณได้ส่งข้อความประเภท: ไฟล์ (File)" ++ nl ++ "ชื่อไฟล์: " ++ f))
  /\ (forall a, get Edge.full_message "address" = Normal (VStr a) ->
        replyText Edge.full_event (VStr "location")
        = Normal ("คุณได้ส่งข้อความประเภท: ตำแหน่งที่ตั้ง (Location)" ++ nl
                  ++ "ที่อยู่: " ++ a))
  /\ (forall p s,
        get Edge.full_message "packageId" = Normal (VStr p) ->
        get Edge.full_message "stickerId" = Normal (VStr s) ->
        replyText Edge.full_event (VStr "sticker")
        = Normal ("คุณได้ส่งข้อความประเภท: สติกเกอร์ (Sticker)" ++ nl
                  ++ "Package ID: " ++ p ++ nl ++ "Sticker ID: " ++ s)).
Proof.
  apply (reply_embeds_fields Edge.full_event Edge.full_message).
  reflexivity.
Defined.

(** X9.  A content field the message does not have is not an error: the
    template prints it as the word undefined. *)
Theorem missing_field_prints_undefined (event : value)
        (props : list (string * value)) :
  get event "message" = Normal (VObj props) ->
  (lookup "text" props = None ->
   replyText event (VStr "text")
   = Normal ("คุณได้ส่งข้อความประเภท: ข้อความ (Text)" ++ nl
             ++ "ข้อความของคุณคือ: " ++ dq ++ "undefined" ++ dq))
  /\ (lookup "fileName" props = None ->
      replyText event (VStr "file")
      = Normal ("คุณได้ส่งข้อความประเภท: ไฟล์ (File)" ++ nl
                ++ "ชื่อไฟล์: " ++ "undefined"))
  /\ (lookup "address" props = None ->
      replyText event (VStr "location")
      = Normal ("คุณได้ส่งข้อความประเภท: ตำแหน่งที่ตั้ง (Location)" ++ nl
                ++ "ที่อยู่: " ++ "undefined")).
Proof.
  intros Hm. unfold replyText, get2. rewrite Hm. cbn [bindC get].
  split; [|split]; intros H.
  - replace (is_str (VStr "text") "text") with true by reflexivity.
    rewrite H. reflexivity.
  - replace (is_str (VStr "file") "text") with false by reflexivity.
    replace (is_str (VStr "file") "image") with false by reflexivity.
    replace (is_str (VStr "file") "video") with false by reflexivity.
    replace (is_str (VStr "file") "audio") with false by reflexivity.
    replace (is_str (VStr "file") "file") with true by reflexivity.
    rewrite H. reflexivity.
  - replace (is_str (VStr "location") "text") with false by reflexivity.
    replace (is_str (VStr "location") "image") with false by reflexivity.
    replace (is_str (VStr "location") "video") with false by reflexivity.
    replace (is_str (VStr "location") "audio") with false by reflexivity.
    replace (is_str (VStr "location") "file") with false by reflexivity.
    replace (is_str (VStr "location") "location") with true by reflexivity.
    rewrite H. reflexivity.
Qed.

Lemma missing_field_prints_undefined_witness :
  (lookup "text" [("type", VStr "file")] = None ->
   replyText Edge.nameless_file_event (VStr "text")
   = Normal ("คุณได้ส่งข้อความประเภท: ข้อความ (Text)" ++ nl
             ++ "ข้อความของคุณคือ: " ++ dq ++ "undefined" ++ dq))
  /\ (lookup "fileName" [("type", VStr "file")] = None ->
      replyText Edge.nameless_file_event (VStr "file")
      = Normal ("คุณได้ส่งข้อความประเภท: ไฟล์ (File)" ++ nl
                ++ "ชื่อไฟล์: " ++ "undefined"))
  /\ (lookup "address" [("type", VStr "file")] = None ->
      replyText Edge.nameless_file_event (VStr "location")
      = Normal ("คุณได้ส่งข้อความประเภท: ตำแหน่งที่ตั้ง (Location)" ++ nl
                ++ "ที่อยู่: " ++ "undefined")).
Proof.
  apply (missing_field_prints_undefined Edge.nameless_file_event
           [("type", VStr "file")]).
  reflexivity.
Defined.

(** ** Edge cases of a dispatch *)

(** X10.  A message event whose [message] has no [type] (an object without
    one, or a string, a number, a boolean or an array in the place of the
    object) is not refused: it is answered like an unknown kind, the reply
    naming the type undefined. *)
Theorem untyped_message_answered (client : Client) (event message tok : value)
        (t : trace) :
  is_message_event event = true ->
  get event "message" = Normal message ->
  get message "type" = Normal VUndefined ->
  get event "replyToken" = Normal tok ->
  renders tok = true ->
  snd (handleEvent client event t)
  = (t ++ [Dispatch event;
           Reply tok
             (VObj [("type", VStr "text");
                    ("text",
                     VStr ("คุณได้ส่งข้อความประเภท: " ++ dq ++ "undefined" ++ dq
                           ++ " ซึ่งยังไม่รองรับการตอบกลับ"))])])%list.
Proof.
  intros Hme Hm Hty Htok Hr. rewrite handleEvent_trace. f_equal.
  unfold footprint, outline_of. unfold is_message_event in Hme.
  destruct (get event "type") as [type|]; [|discriminate].
  rewrite Hme. cbn [negb]. unfold get2. rewrite Hm. cbn [bindC].
  rewrite Hty.
  replace (replyText event VUndefined)
    with (Normal ("คุณได้ส่งข้อความประเภท: " ++ dq ++ "undefined" ++ dq
                  ++ " ซึ่งยังไม่รองรับการตอบกลับ")) by reflexivity.
  rewrite Htok. cbn [bindC].
  destruct (renders_ToString _ Hr) as [s ->]. reflexivity.
Qed.

Lemma untyped_message_answered_witness :
  snd (handleEvent Sample.delivers Edge.string_message_event [])
  = ([] ++ [Dispatch Edge.string_message_event;
           Reply (VStr "r5")
             (VObj [("type", VStr "text");
                    ("text",
                     VStr ("คุณได้ส่งข้อความประเภท: " ++ dq ++ "undefined" ++ dq
                           ++ " ซึ่งยังไม่รองรับการตอบกลับ"))])])%list.
Proof.
  apply (untyped_message_answered Sample.delivers Edge.string_message_event
           (VStr "hi") (VStr "r5") []); reflexivity.
Defined.

(** X11.  A message event whose [replyToken] cannot be printed fails in
    silence: the log line of line 146 throws inside the [try] block, the
    exception is swallowed, the promise is fulfilled with [null] and no
    delivery call is made. *)
Theorem unprintable_token_swallowed (client : Client) (event : value)
        (t : trace) :
  dispatchable event = true ->
  is_message_event event = true ->
  field_renders event "replyToken" = false ->
  handleEvent client event t
  = (Fulfilled VNull, (t ++ [Dispatch event])%list).
Proof.
  intros Hd Hme Htok. rewrite handleEvent_outline.
  assert (Ho : outline_of event = NotSent TypeError).
  { destruct (dispatchable_outline event Hd) as [Ho | [Ho | (tok & msg & Ho)]];
      [exfalso | exact Ho | exfalso]; revert Ho;
      unfold outline_of; unfold is_message_event in Hme;
      unfold field_renders, renders in Htok;
      destruct (get event "type") as [type|]; try discriminate;
      rewrite Hme; cbn [negb];
      destruct (get2 event "message" "type"); try discriminate;
      destruct (replyText event _); try discriminate;
      destruct (get event "replyToken") as [shown|]; cbn [bindC];
      try discriminate;
      destruct (ToString shown); cbn [bindC]; discriminate. }
  rewrite Ho. reflexivity.
Qed.

Lemma unprintable_token_swallowed_witness :
  handleEvent Sample.delivers Edge.odd_token_event []
  = (Fulfilled VNull, ([] ++ [Dispatch Edge.odd_token_event])%list).
Proof.
  apply (unprintable_token_swallowed Sample.delivers Edge.odd_token_event []);
    reflexivity.
Defined.

(** X12.  The [catch] block reads [error.message] before anything else, so
    a delivery call rejected with [null] or [undefined] for a reason is not
    captured: the promise of [handleEvent] rejects with a [TypeError]. *)
Theorem bare_rejection_escapes (client : Client) (event : value) (t : trace)
        (tok msg reason : value) :
  snd (handleEvent client event t)
  = (t ++ [Dispatch event; Reply tok msg])%list ->
  client (replies t) tok msg = Rejected (Reason reason) ->
  nullish reason = true ->
  fst (handleEvent client event t) = Rejected TypeError.
Proof.
  intros Hs Hc Hn. apply handleEvent_sends in Hs.
  rewrite handleEvent_outline, Hs. cbn [fst]. rewrite Hc.
  unfold delivery_outcome, caught, error_object. rewrite Hn. reflexivity.
Qed.

Lemma bare_rejection_escapes_witness :
  fst (handleEvent Edge.rejects_bare (Sample.text_event "r1" "hello") [])
  = Rejected TypeError.
Proof.
  apply (bare_rejection_escapes Edge.rejects_bare
           (Sample.text_event "r1" "hello") [] (VStr "r1")
           (VObj [("type", VStr "text");
                  ("text", VStr (text_head ++ "hello" ++ dq))])
           VUndefined); reflexivity.
Defined.

(** ** Edge cases of a batch *)

(** X13.  The webhook handler throws a [TypeError], before any dispatch,
    when the body is [null] or [undefined], or when its [events] is neither
    empty nor an array (a non-empty string, a number, [true], an object
    whose length is not zero): nothing but an array has a [map] to call. *)
Theorem malformed_body_throws (client : Client) (req : request) (t : trace) :
  nullish (req_body req) = true
  \/ (exists events,
         get (req_body req) "events" = Normal events
         /\ no_events events = Normal false
         /\ is_array events = false) ->
  post_webhook client req t = (Throw TypeError, t).
Proof.
  unfold post_webhook, bind, lift, ret.
  intros [Hn | (events & He & Hne & Ha)].
  - rewrite (get_nullish _ _ Hn). reflexivity.
  - rewrite He, Hne. destruct events; try reflexivity. discriminate.
Qed.

Lemma malformed_body_throws_witness :
  post_webhook Sample.delivers
    (Edge.post_body (VObj [("events", VObj [("0", Sample.follow_event)])])) []
  = (Throw TypeError, []).
Proof.
  apply (malformed_body_throws Sample.delivers
           (Edge.post_body (VObj [("events", VObj [("0", Sample.follow_event)])]))
           []).
  right. exists (VObj [("0", Sample.follow_event)]).
  repeat split; reflexivity.
Defined.

(** X14.  Any falsy [events] ([null], [false], zero, the empty string) and
    any value whose [length] is zero is treated like a missing field: 200
    with the text OK, and nothing dispatched. *)
Theorem falsy_events_acknowledged (cfg : lineConfig) (client : Client)
        (req : request) (events : value) :
  target req = PostWebhook ->
  truthy (verdict req) = false ->
  get (req_body req) "events" = Normal events ->
  truthy events = false \/ get events "length" = Normal (VNum 0) ->
  app cfg client req = ({| status := 200; body := Text "OK" |}, []).
Proof.
  intros Ht Hv He H. rewrite (app_authenticated _ _ _ Hv), Ht.
  unfold post_webhook, bind, lift, ret. rewrite He.
  assert (Hno : no_events events = Normal true).
  { unfold no_events. destruct (truthy events); [|reflexivity].
    destruct H as [H | H]; [discriminate|]. cbn [negb]. rewrite H.
    reflexivity. }
  rewrite Hno. reflexivity.
Qed.

Lemma falsy_events_acknowledged_witness :
  app Sample.cfg Sample.delivers
    (Edge.post_body (VObj [("events", VObj [("length", VNum 0)])]))
  = ({| status := 200; body := Text "OK" |}, []).
Proof.
  apply (falsy_events_acknowledged Sample.cfg Sample.delivers
           (Edge.post_body (VObj [("events", VObj [("length", VNum 0)])]))
           (VObj [("length", VNum 0)]));
    try reflexivity.
  right. reflexivity.
Defined.

Lemma dispatchable_settles (client : Client) (event : value) (t : trace) :
  dispatchable event = true ->
  (forall n tok msg e, client n tok msg = Rejected e -> error_object e = true) ->
  forall e, fst (handleEvent client event t) <> Rejected e.
Proof.
  intros Hd Hc e. rewrite handleEvent_outline.
  destruct (dispatchable_outline event Hd) as [-> | [-> | (tok & msg & ->)]];
    try discriminate.
  cbn [fst]. destruct (client (replies t) tok msg) as [r|e'] eqn:E;
    cbn [delivery_outcome]; [discriminate|].
  rewrite (caught_error_object _ (Hc _ _ _ _ E)). discriminate.
Qed.

Lemma nth_error_promise (client : Client) (items : list value) (i : nat)
      (p : promise) :
  nth_error (fst (map_handleEvent client items [])) i = Some p ->
  exists event,
    nth_error items i = Some event
    /\ p = fst (handleEvent client event (trace_before client items i)).
Proof.
  intros Hp. destruct (nth_error items i) as [event|] eqn:Hi.
  - exists event. split; [reflexivity|].
    rewrite (map_handleEvent_nth client items [] i event Hi) in Hp.
    rewrite app_nil_l, <- (trace_before_footprint client) in Hp.
    congruence.
  - apply nth_error_None in Hi.
    rewrite <- (map_handleEvent_length client items []) in Hi.
    apply nth_error_None in Hi. congruence.
Qed.

(** X15.  A batch in which every event can be read, served by a client
    that rejects with error objects only, is never answered with an error:
    the body says success and the result array has one entry per event. *)
Theorem readable_batch_succeeds (cfg : lineConfig) (client : Client)
        (req : request) (items : list value) :
  target req = PostWebhook ->
  truthy (verdict req) = false ->
  get (req_body req) "events" = Normal (VArr items) ->
  items <> [] ->
  Forall (fun event => dispatchable event = true) items ->
  (forall n tok msg e, client n tok msg = Rejected e -> error_object e = true) ->
  exists result,
    fst (app cfg client req)
    = {| status := 200;
         body := Json (VObj [("status", VStr "success");
                             ("result", VArr result)]) |}
    /\ List.length result = List.length items.
Proof.
  intros Ht Hv He Hne Hall Hc. rewrite (app_authenticated _ _ _ Hv), Ht.
  rewrite (post_webhook_batch client req items He Hne). cbn [fst].
  destruct (Promise_all (fst (map_handleEvent client items [])))
    as [result|] eqn:Hp.
  - exists result. split; [reflexivity|].
    apply Promise_all_fulfilled in Hp.
    rewrite <- (map_handleEvent_length client items []), Hp.
    symmetry. apply length_map.
  - exfalso. apply Promise_all_rejected in Hp. destruct Hp as (i & e & Hi).
    destruct (nth_error_promise _ _ _ _ Hi) as (event & Hev & Hrej).
    rewrite Forall_forall in Hall.
    apply (dispatchable_settles client event (trace_before client items i)
             (Hall event (nth_error_In _ _ Hev)) Hc e).
    congruence.
Qed.

Lemma readable_batch_succeeds_witness :
  exists result,
    fst (app Sample.cfg Sample.fails_second (Sample.post Sample.batch))
    = {| status := 200;
         body := Json (VObj [("status", VStr "success");
                             ("result", VArr result)]) |}
    /\ List.length result = List.length Sample.batch.
Proof.
  apply (readable_batch_succeeds Sample.cfg Sample.fails_second
           (Sample.post Sample.batch) Sample.batch);
    try reflexivity.
  - discriminate.
  - repeat constructor.
  - intros n tok msg e. unfold Sample.fails_second.
    destruct (Nat.eqb n 1); intros H; [|discriminate].
    injection H as <-. reflexivity.
Defined.

(** X16.  One event that cannot be read, an entry that is [null] or a
    message event without its [message], fails the whole batch: the body
    says error and carries no result, whatever the client answers; every
    event of the batch has been dispatched all the same. *)
Theorem unreadable_event_fails_batch (cfg : lineConfig) (client : Client)
        (req : request) (items : list value) (event : value) :
  target req = PostWebhook ->
  truthy (verdict req) = false ->
  get (req_body req) "events" = Normal (VArr items) ->
  In event items ->
  nullish event = true \/ lacks_message event = true ->
  fst (app cfg client req)
  = {| status := 200; body := Json (VObj [("status", VStr "error")]) |}
  /\ dispatches (snd (app cfg client req)) = List.length items.
Proof.
  intros Ht Hv He Hin Hbad.
  assert (Hne : items <> []) by (intros ->; destruct Hin).
  assert (Ho : exists e, outline_of event = Throws e).
  { unfold outline_of. destruct Hbad as [Hn | Hl].
    - rewrite (get_nullish _ _ Hn). eauto.
    - unfold lacks_message, is_message_event in Hl.
      apply andb_prop in Hl. destruct Hl as [Hme Hm].
      destruct (get event "type") as [type|]; [|discriminate].
      rewrite Hme. cbn [negb]. unfold get2.
      destruct (get event "message") as [message|]; cbn [bindC]; [|eauto].
      rewrite (get_nullish _ _ Hm). eauto. }
  destruct Ho as [e Ho].
  rewrite (app_authenticated _ _ _ Hv), Ht.
  rewrite (post_webhook_batch client req items He Hne). cbn [fst snd].
  split.
  - destruct (In_nth_error _ _ Hin) as [i Hi].
    assert (Hrej : Promise_all (fst (map_handleEvent client items []))
                   = SomeRejected).
    { apply Promise_all_rejected. exists i, e.
      rewrite (map_handleEvent_nth client items [] i event Hi).
      rewrite handleEvent_outline, Ho. reflexivity. }
    rewrite Hrej. reflexivity.
  - rewrite map_handleEvent_trace, app_nil_l.
    apply flat_map_footprint_counts.
Qed.

Lemma unreadable_event_fails_batch_witness :
  fst (app Sample.cfg Sample.delivers
         (Sample.post [Sample.text_event "r1" "hello"; VNull;
                       Sample.follow_event]))
  = {| status := 200; body := Json (VObj [("status", VStr "error")]) |}
  /\ dispatches (snd (app Sample.cfg Sample.delivers
         (Sample.post [Sample.text_event "r1" "hello"; VNull;
                       Sample.follow_event])))
     = List.length [Sample.text_event "r1" "hello"; VNull;
                    Sample.follow_event].
Proof.
  apply (unreadable_event_fails_batch Sample.cfg Sample.delivers
           (Sample.post [Sample.text_event "r1" "hello"; VNull;
                         Sample.follow_event])
           [Sample.text_event "r1" "hello"; VNull; Sample.follow_event]
           VNull);
    try reflexivity.
  - right; left; reflexivity.
  - left; reflexivity.
Defined.

(** X17.  The reply an event gets on its own it also gets in a batch:
    neither a sibling that cannot be read nor a sibling whose delivery
    fails keeps the call from being made. *)
Theorem sibling_reply_still_sent (cfg : lineConfig) (client client0 : Client)
        (req : request) (items : list value) (event : value) (t0 : trace)
        (tok msg : value) :
  target req = PostWebhook ->
  truthy (verdict req) = false ->
  get (req_body req) "events" = Normal (VArr items) ->
  In event items ->
  snd (handleEvent client0 event t0)
  = (t0 ++ [Dispatch event; Reply tok msg])%list ->
  In (Reply tok msg) (snd (app cfg client req)).
Proof.
  intros Ht Hv He Hin Hs.
  assert (Hne : items <> []) by (intros ->; destruct Hin).
  apply handleEvent_sends in Hs.
  rewrite (app_authenticated _ _ _ Hv), Ht.
  rewrite (post_webhook_batch client req items He Hne). cbn [snd].
  rewrite map_handleEvent_trace, app_nil_l. apply in_flat_map.
  exists event. split; [exact Hin|].
  unfold footprint. rewrite Hs. right; left; reflexivity.
Qed.

Lemma sibling_reply_still_sent_witness :
  In (Reply (VStr "r1")
        (VObj [("type", VStr "text");
               ("text", VStr (text_head ++ "hello" ++ dq))]))
     (snd (app Sample.cfg Edge.rejects_bare
             (Sample.post [Sample.bare_event; Sample.text_event "r1" "hello"]))).
Proof.
  apply (sibling_reply_still_sent Sample.cfg Edge.rejects_bare Sample.delivers
           (Sample.post [Sample.bare_event; Sample.text_event "r1" "hello"])
           [Sample.bare_event; Sample.text_event "r1" "hello"]
           (Sample.text_event "r1" "hello") [] (VStr "r1")
           (VObj [("type", VStr "text");
                  ("text", VStr (text_head ++ "hello" ++ dq))]));
    try reflexivity.
  right; left; reflexivity.
Defined.

(** X18.  The effects of a batch are the effects each event has when it
    is handled alone, one after the other in the order of the array: the
    replies leave in the order of the events, and no event adds to or takes
    from what another does. *)
Theorem batch_effects_in_order (cfg : lineConfig) (client : Client)
        (req : request) (items : list value) :
  target req = PostWebhook ->
  truthy (verdict req) = false ->
  get (req_body req) "events" = Normal (VArr items) ->
  snd (app cfg client req)
  = flat_map (fun event => snd (handleEvent client event [])) items.
Proof.
  intros Ht Hv He. rewrite (app_authenticated _ _ _ Hv), Ht.
  destruct items as [ | first rest].
  - rewrite (post_webhook_empty client req _ He (or_intror eq_refl)).
    reflexivity.
  - rewrite (post_webhook_batch client req _ He ltac:(discriminate)).
    cbn [snd]. rewrite map_handleEvent_trace, app_nil_l.
    apply flat_map_ext. intros event.
    rewrite handleEvent_trace. reflexivity.
Qed.

Lemma batch_effects_in_order_witness :
  snd (app Sample.cfg Sample.fails_second (Sample.post Sample.batch))
  = flat_map (fun event => snd (handleEvent Sample.fails_second event []))
      Sample.batch.
Proof.
  apply (batch_effects_in_order Sample.cfg Sample.fails_second
           (Sample.post Sample.batch) Sample.batch);
    reflexivity.
Defined.
